(** * EV-Station-Agent: the User Agent core, embedded and verified

    A shallow embedding of the User Agent's orchestration core: the context
    manager's urgency and trigger rules, the reservation status machine, the
    two retry loops, the local sync queue with the server-sync engine, the
    session monitor and the orchestrator's cycle and user-action handler.

    Conventions of the embedding.
    - A Python [float] that is only compared is a rational ([Q]); the
      comparisons of finite floats agree with those of the rationals they
      denote.  NaN is not modelled.
    - A [datetime] is an integer count of microseconds ([Z]), a naive UTC
      instant; [datetime.utcnow()] is an explicit argument [now].
    - A method that mutates [self] and may raise is a function from the
      object to an outcome paired with the object as the call leaves it.
    - The network, the Coordinator and the clock are explicit oracles. *)

From Stdlib Require Import ZArith QArith List String Ascii Bool Lia.
Import ListNotations.
Open Scope string_scope.
Open Scope list_scope.
Open Scope Z_scope.

(** ** Exceptions and outcomes *)

Inductive exn : Type :=
| ValueError (msg : string)
| TypeError (msg : string)
| AttributeError (msg : string)
| RequestException (msg : string)
| PlainException (msg : string).

Inductive result (A : Type) : Type :=
| Ok (a : A)
| Raise (e : exn).
Arguments Ok {A} a.
Arguments Raise {A} e.


(** A stateful, fallible computation over an object of type [S]. *)
Definition M (S A : Type) : Type := S -> result A * S.

Definition ret {S A} (a : A) : M S A := fun s => (Ok a, s).
Definition raise {S A} (e : exn) : M S A := fun s => (Raise e, s).
Definition bind {S A B} (m : M S A) (k : A -> M S B) : M S B :=
  fun s => match m s with
           | (Ok a, s') => k a s'
           | (Raise e, s') => (Raise e, s')
           end.
Definition get {S} : M S S := fun s => (Ok s, s).
Definition modify {S} (f : S -> S) : M S unit := fun s => (Ok tt, f s).

Notation "x <- m ;; k" := (bind m (fun x => k))
  (at level 61, m at next level, right associativity).
Notation "m ;;; k" := (bind m (fun _ => k))
  (at level 61, right associativity).

(** [datetime] values: microseconds, as [datetime] resolves them. *)
Definition datetime : Type := Z.
Definition usec_per_minute : Z := 60000000.
Definition usec_per_second : Z := 1000000.

(** ** config/ua_config.py *)

Module Config.

Record UAConfig : Type := {
  poll_interval_sec : Z;
  error_retry_delay_sec : Z;
  enable_scheduled_trigger : bool;
  soc_emergency_threshold : Q;
  soc_high_threshold : Q;
  soc_medium_threshold : Q;
  soc_trigger_threshold : Q;
  minor_delay_threshold_min : Z;
  major_delay_threshold_min : Z;
  no_show_threshold_min : Z;
  telemetry_timeout_sec : Z;
  default_avg_speed_kmph : Z;
  ca_base_url : string;
  max_retries : Z;
  initial_retry_delay : Z;
  server_base_url : string
}.

(** The class attributes of [UAConfig] as the file sets them. *)
Definition default : UAConfig := {|
  poll_interval_sec := 5;
  error_retry_delay_sec := 3;
  enable_scheduled_trigger := false;
  soc_emergency_threshold := 10 # 100;
  soc_high_threshold := 25 # 100;
  soc_medium_threshold := 50 # 100;
  soc_trigger_threshold := 30 # 100;
  minor_delay_threshold_min := 5;
  major_delay_threshold_min := 15;
  no_show_threshold_min := 30;
  telemetry_timeout_sec := 60;
  default_avg_speed_kmph := 40;
  ca_base_url := "http://localhost:8000/ca";
  max_retries := 3;
  initial_retry_delay := 1;
  server_base_url := "http://localhost:9000/api"
|}.

End Config.

(** ** Components/context manager.py *)

Module ContextManager.
Import Config.

Inductive UrgencyLevel : Type := EMERGENCY | HIGH | MEDIUM | LOW.

Record LatLon : Type := { lat : Q; lon : Q }.

Record RawVehicleData : Type := {
  raw_gps_location : LatLon;
  raw_state_of_charge : Q;
  raw_remaining_range_km : Q;
  raw_destination : option LatLon;
  raw_planned_route : list LatLon;
  raw_current_datetime : datetime;
  user_trigger : bool
}.

Record VehicleContext : Type := {
  vehicle_id : string;
  timestamp : datetime;
  gps_location : LatLon;
  state_of_charge : Q;
  remaining_range_km : Q;
  destination : option LatLon;
  planned_route : list LatLon;
  urgency_level : UrgencyLevel
}.

(** [collect_vehicle_data]: the simulation stub, a fixed reading stamped
    with the current time. *)
Definition collect_vehicle_data (now : datetime) : RawVehicleData := {|
  raw_gps_location := {| lat := 129716 # 10000; lon := 775946 # 10000 |};
  raw_state_of_charge := 32 # 100;
  raw_remaining_range_km := 120;
  raw_destination := Some {| lat := 129352 # 10000; lon := 776245 # 10000 |};
  raw_planned_route := [];
  raw_current_datetime := now;
  user_trigger := false
|}.

(** [compute_urgency]: a chain of [<=] tests, strictest tier first. *)
Definition compute_urgency (cfg : UAConfig) (soc : Q) : UrgencyLevel :=
  if Qle_bool soc (soc_emergency_threshold cfg) then EMERGENCY
  else if Qle_bool soc (soc_high_threshold cfg) then HIGH
  else if Qle_bool soc (soc_medium_threshold cfg) then MEDIUM
  else LOW.

(** The order of the enum as the data model gives it:
    [Emergency > High > Medium > Low]. *)
Definition strictness (u : UrgencyLevel) : nat :=
  match u with EMERGENCY => 3 | HIGH => 2 | MEDIUM => 1 | LOW => 0 end.

Definition build_vehicle_context (cfg : UAConfig) (vid : string)
  (raw : RawVehicleData) : VehicleContext := {|
  vehicle_id := vid;
  timestamp := raw_current_datetime raw;
  gps_location := raw_gps_location raw;
  state_of_charge := raw_state_of_charge raw;
  remaining_range_km := raw_remaining_range_km raw;
  destination := raw_destination raw;
  planned_route := raw_planned_route raw;
  urgency_level := compute_urgency cfg (raw_state_of_charge raw)
|}.

(** The three urgency thresholds in ascending order, as the configuration
    comments lay them out (10 percent, 25 percent, 50 percent). *)
Definition ascending_thresholds (cfg : UAConfig) : Prop :=
  (soc_emergency_threshold cfg < soc_high_threshold cfg)%Q /\
  (soc_high_threshold cfg < soc_medium_threshold cfg)%Q.

(** [_scheduled_departure_trigger]: the placeholder of the source. *)
Definition _scheduled_departure_trigger : bool := false.

Section Trigger.

(** [_estimate_distance], the great-circle utility, is floating-point
    trigonometry: it is a parameter here.  [resample] is what the second
    call of [collect_vehicle_data] inside the trigger returns, and
    [scheduled] what the scheduled-departure predicate answers. *)
Variable _estimate_distance : LatLon -> LatLon -> Q.
Variable resample : RawVehicleData.
Variable scheduled : bool.

Definition should_trigger_charging (cfg : UAConfig) (ctx : VehicleContext)
  : bool :=
  if Qle_bool (state_of_charge ctx) (soc_trigger_threshold cfg) then true
  else
    let range_short :=
      match destination ctx with
      | Some dest =>
          negb (Qle_bool (_estimate_distance (gps_location ctx) dest)
                         (remaining_range_km ctx))
      | None => false
      end in
    if range_short then true
    else if user_trigger resample then true
    else if enable_scheduled_trigger cfg then
           (if scheduled then true else false)
    else false.

End Trigger.

(** [get_current_snapshot]: one reading, built into a context. *)
Definition get_current_snapshot (cfg : UAConfig) (vid : string)
  (now : datetime) : VehicleContext :=
  build_vehicle_context cfg vid (collect_vehicle_data now).

End ContextManager.

(** ** models/reservation_models.py *)

Module ReservationModels.

Inductive ReservationStatus : Type :=
| PENDING | CONFIRMED | ACTIVE | COMPLETED | CANCELLED | NO_SHOW | FAILED.

Inductive CancellationReason : Type :=
| USER_CANCELLED | DELAY | FAULT | REASON_NO_SHOW | SYSTEM.

Record Reservation : Type := {
  reservation_id : string;
  station_id : string;
  user_id : string;
  vehicle_id : string;
  slot_id : string;
  slot_start_time_iso : string;
  slot_end_time_iso : string;
  reserved_price : Q;
  status : ReservationStatus;
  created_at : datetime;
  activated_at : option datetime;
  completed_at : option datetime;
  cancelled_at : option datetime;
  cancellation_reason : option CancellationReason
}.

Definition status_eqb (a b : ReservationStatus) : bool :=
  match a, b with
  | PENDING, PENDING | CONFIRMED, CONFIRMED | ACTIVE, ACTIVE
  | COMPLETED, COMPLETED | CANCELLED, CANCELLED | NO_SHOW, NO_SHOW
  | FAILED, FAILED => true
  | _, _ => false
  end.

(** Field updates, one per attribute the transitions assign. *)
Definition set_status (s : ReservationStatus) (r : Reservation) : Reservation :=
  {| reservation_id := reservation_id r; station_id := station_id r;
     user_id := user_id r; vehicle_id := vehicle_id r; slot_id := slot_id r;
     slot_start_time_iso := slot_start_time_iso r;
     slot_end_time_iso := slot_end_time_iso r;
     reserved_price := reserved_price r; status := s;
     created_at := created_at r; activated_at := activated_at r;
     completed_at := completed_at r; cancelled_at := cancelled_at r;
     cancellation_reason := cancellation_reason r |}.

Definition set_activated_at (t : datetime) (r : Reservation) : Reservation :=
  {| reservation_id := reservation_id r; station_id := station_id r;
     user_id := user_id r; vehicle_id := vehicle_id r; slot_id := slot_id r;
     slot_start_time_iso := slot_start_time_iso r;
     slot_end_time_iso := slot_end_time_iso r;
     reserved_price := reserved_price r; status := status r;
     created_at := created_at r; activated_at := Some t;
     completed_at := completed_at r; cancelled_at := cancelled_at r;
     cancellation_reason := cancellation_reason r |}.

Definition set_completed_at (t : datetime) (r : Reservation) : Reservation :=
  {| reservation_id := reservation_id r; station_id := station_id r;
     user_id := user_id r; vehicle_id := vehicle_id r; slot_id := slot_id r;
     slot_start_time_iso := slot_start_time_iso r;
     slot_end_time_iso := slot_end_time_iso r;
     reserved_price := reserved_price r; status := status r;
     created_at := created_at r; activated_at := activated_at r;
     completed_at := Some t; cancelled_at := cancelled_at r;
     cancellation_reason := cancellation_reason r |}.

Definition set_cancelled_at (t : datetime) (r : Reservation) : Reservation :=
  {| reservation_id := reservation_id r; station_id := station_id r;
     user_id := user_id r; vehicle_id := vehicle_id r; slot_id := slot_id r;
     slot_start_time_iso := slot_start_time_iso r;
     slot_end_time_iso := slot_end_time_iso r;
     reserved_price := reserved_price r; status := status r;
     created_at := created_at r; activated_at := activated_at r;
     completed_at := completed_at r; cancelled_at := Some t;
     cancellation_reason := cancellation_reason r |}.

Definition set_cancellation_reason (c : CancellationReason) (r : Reservation)
  : Reservation :=
  {| reservation_id := reservation_id r; station_id := station_id r;
     user_id := user_id r; vehicle_id := vehicle_id r; slot_id := slot_id r;
     slot_start_time_iso := slot_start_time_iso r;
     slot_end_time_iso := slot_end_time_iso r;
     reserved_price := reserved_price r; status := status r;
     created_at := created_at r; activated_at := activated_at r;
     completed_at := completed_at r; cancelled_at := cancelled_at r;
     cancellation_reason := Some c |}.

(** The four transitions.  Each tests its guard first and raises before any
    attribute is assigned. *)
Definition mark_active (now : datetime) : M Reservation unit :=
  self <- get ;;
  if negb (status_eqb (status self) CONFIRMED) then
    raise (ValueError "Only CONFIRMED reservation can become ACTIVE")
  else
    modify (set_status ACTIVE) ;;;
    modify (set_activated_at now).

Definition mark_completed (now : datetime) : M Reservation unit :=
  self <- get ;;
  if negb (status_eqb (status self) ACTIVE) then
    raise (ValueError "Only ACTIVE reservation can be completed")
  else
    modify (set_status COMPLETED) ;;;
    modify (set_completed_at now).

Definition mark_cancelled (reason : CancellationReason) (now : datetime)
  : M Reservation unit :=
  self <- get ;;
  if status_eqb (status self) COMPLETED || status_eqb (status self) CANCELLED
  then raise (ValueError "Reservation already finalized")
  else
    modify (set_status CANCELLED) ;;;
    modify (set_cancellation_reason reason) ;;;
    modify (set_cancelled_at now).

Definition mark_no_show (now : datetime) : M Reservation unit :=
  self <- get ;;
  if negb (status_eqb (status self) CONFIRMED) then
    raise (ValueError "Only CONFIRMED reservation can be NO_SHOW")
  else
    modify (set_status NO_SHOW) ;;;
    modify (set_cancelled_at now).

(** The transition operations, as one call interface. *)
Inductive transition : Type :=
| MarkActive
| MarkCompleted
| MarkCancelled (reason : CancellationReason)
| MarkNoShow.

Definition apply_transition (op : transition) (now : datetime)
  : M Reservation unit :=
  match op with
  | MarkActive => mark_active now
  | MarkCompleted => mark_completed now
  | MarkCancelled reason => mark_cancelled reason now
  | MarkNoShow => mark_no_show now
  end.

Definition target (op : transition) : ReservationStatus :=
  match op with
  | MarkActive => ACTIVE
  | MarkCompleted => COMPLETED
  | MarkCancelled _ => CANCELLED
  | MarkNoShow => NO_SHOW
  end.

(** The status graph as the specification words it:
    Confirmed to Active to Completed, or Confirmed to Cancelled or NoShow. *)
Inductive spec_step : ReservationStatus -> ReservationStatus -> Prop :=
| spec_activate : spec_step CONFIRMED ACTIVE
| spec_complete : spec_step ACTIVE COMPLETED
| spec_cancel : spec_step CONFIRMED CANCELLED
| spec_no_show : spec_step CONFIRMED NO_SHOW.

(** The status graph the guards of the four methods accept: cancellation is
    open to every reservation that is neither Completed nor Cancelled. *)
Inductive code_step : ReservationStatus -> ReservationStatus -> Prop :=
| code_activate : code_step CONFIRMED ACTIVE
| code_complete : code_step ACTIVE COMPLETED
| code_no_show : code_step CONFIRMED NO_SHOW
| code_cancel s : s <> COMPLETED -> s <> CANCELLED -> code_step s CANCELLED.

(** A reservation in progress, for the examples. *)
Definition sample (s : ReservationStatus) : Reservation := {|
  reservation_id := "res_1"; station_id := "st_1"; user_id := "user_001";
  vehicle_id := "vehicle_001"; slot_id := "slot_1";
  slot_start_time_iso := "2026-01-01T10:00:00";
  slot_end_time_iso := "2026-01-01T11:00:00";
  reserved_price := 12; status := s; created_at := 0;
  activated_at := None; completed_at := None; cancelled_at := None;
  cancellation_reason := None
|}.

End ReservationModels.

(** ** utils/retry_policy.py and communication/ca_client.py *)

Module Retry.
Import Config.

(** What a run of a retry loop does, in order: the [n]-th invocation of the
    wrapped call (counted from 0) and the sleeps between invocations. *)
Inductive event (D : Type) : Type :=
| Called (n : nat)
| Slept (d : D).
Arguments Called {D} n.
Arguments Slept {D} d.

(** What a Python function hands back: the value of a [return], or [None]
    when control runs off the end of the body. *)
Inductive returned (A : Type) : Type :=
| Value (a : A)
| NoneValue.
Arguments Value {A} a.
Arguments NoneValue {A}.

(** [range(lo, lo + n)] *)
Fixpoint range_from (lo : Z) (n : nat) : list Z :=
  match n with
  | O => []
  | S k => lo :: range_from (lo + 1) k
  end.

Definition range (lo hi : Z) : list Z := range_from lo (Z.to_nat (hi - lo)).

Record RetryPolicy : Type := {
  max_attempts : Z;
  initial_delay : Q;
  backoff_factor : Q
}.

(** The constructor's defaults. *)
Definition default_policy : RetryPolicy :=
  {| max_attempts := 3; initial_delay := 1; backoff_factor := 2 |}.

Section Execute.
Context {A : Type}.

(** The wrapped call: the outcome of its [n]-th invocation. *)
Variable func : nat -> result A.

(** The body of [for attempt in range(1, max_attempts + 1)]. *)
Fixpoint execute_loop (p : RetryPolicy) (attempts : list Z) (calls : nat)
  (delay : Q) : result (returned A) * list (event Q) :=
  match attempts with
  | [] => (Ok NoneValue, [])
  | attempt :: rest =>
      match func calls with
      | Ok v => (Ok (Value v), [Called calls])
      | Raise e =>
          if attempt =? max_attempts p then (Raise e, [Called calls])
          else
            let '(r, tr) :=
              execute_loop p rest (S calls) (delay * backoff_factor p)%Q in
            (r, Called calls :: Slept delay :: tr)
      end
  end.

Definition execute (p : RetryPolicy)
  : result (returned A) * list (event Q) :=
  execute_loop p (range 1 (max_attempts p + 1)) 0%nat (initial_delay p).

(** [CAClient._post_with_retry]: [func] stands for the request, the status
    check and the decoding of the body.  The loop sleeps after every
    failure, the last one included, and raises once it is over. *)
Fixpoint post_loop (attempts : list Z) (calls : nat) (delay : Z)
  : result A * list (event Z) :=
  match attempts with
  | [] => (Raise (PlainException "CA unreachable after retries"), [])
  | _ :: rest =>
      match func calls with
      | Ok v => (Ok v, [Called calls])
      | Raise _ =>
          let '(r, tr) := post_loop rest (S calls) (delay * 2) in
          (r, Called calls :: Slept delay :: tr)
      end
  end.

Definition _post_with_retry (cfg : UAConfig) : result A * list (event Z) :=
  post_loop (range 0 (max_retries cfg)) 0%nat (initial_retry_delay cfg).

End Execute.





End Retry.

(** ** Components/session_monitor.py *)

Module SessionMonitor.
Import Config.

Record LatLon : Type := { lat : Q; lon : Q }.

Record Reservation : Type := {
  reservation_id : string;
  station_id : string;
  slot_id : string;
  res_vehicle_id : string;
  start_time : string;
  duration_min : Z;
  status : string
}.

Record TelemetryData : Type := {
  charging_progress_pct : Q;
  power_kw : Q;
  energy_kwh : Q;
  session_status : string;
  timestamp : string
}.

Record FaultAlert : Type := {
  fault_type : string;
  fault_severity : string;
  fault_station_id : string;
  fault_slot_id : string;
  fault_timestamp : string
}.

Record DelayResult : Type := {
  delay_reservation_id : string;
  new_eta : string;
  delay_minutes : Z;
  severity : string
}.

Record SessionResult : Type := {
  session_id : string;
  result_reservation_id : string;
  result_station_id : string;
  actual_cost : Q;
  actual_wait_min : Z;
  distance_km : Q;
  energy_delivered_kwh : Q;
  session_start : option string;
  session_end : string;
  user_satisfaction : option Z;
  chosen_station_rank : Z
}.

(** The monitor object.  No telemetry instant is recorded until
    [receive_telemetry] runs. *)
Record t : Type := {
  vehicle_id : string;
  _reservation : option Reservation;
  _station_location : option LatLon;
  _last_gps : option LatLon;
  _telemetry : option TelemetryData;
  _session_start_time : option datetime;
  _last_telemetry_time : option datetime
}.

(** [__init__] *)
Definition init (vid : string) : t := {|
  vehicle_id := vid;
  _reservation := None;
  _station_location := None;
  _last_gps := None;
  _telemetry := None;
  _session_start_time := None;
  _last_telemetry_time := None
|}.

(** [start_session_monitoring]: rebinds the monitor, resetting the session
    start, the telemetry and the telemetry instant; the log line that
    follows reads [reservation.reservation_id]. *)
Definition start_session_monitoring (reservation : option Reservation)
  (station_location : option LatLon) : M t unit :=
  modify (fun self => {|
    vehicle_id := vehicle_id self;
    _reservation := reservation;
    _station_location := station_location;
    _last_gps := _last_gps self;
    _telemetry := None;
    _session_start_time := None;
    _last_telemetry_time := None |}) ;;;
  match reservation with
  | Some _ => ret tt
  | None =>
      raise (AttributeError
               "'NoneType' object has no attribute 'reservation_id'")
  end.

Definition set_last_gps (gps : LatLon) (self : t) : t := {|
  vehicle_id := vehicle_id self;
  _reservation := _reservation self;
  _station_location := _station_location self;
  _last_gps := Some gps;
  _telemetry := _telemetry self;
  _session_start_time := _session_start_time self;
  _last_telemetry_time := _last_telemetry_time self |}.

(** [int((a - b).total_seconds() / 60)]: whole minutes, truncated toward
    zero.  The float division is taken as exact. *)
Definition minutes_between (a b : datetime) : Z :=
  Z.quot (a - b) usec_per_minute.

(** The severity ladder of [update_eta]. *)
Definition classify (cfg : UAConfig) (delay : Z) : string :=
  if delay >=? no_show_threshold_min cfg then "NO_SHOW"
  else if delay >=? major_delay_threshold_min cfg then "MAJOR"
  else "MINOR".

Section Monitor.

(** [datetime.fromisoformat] ([None] when the text yields no naive instant
    to subtract from: the parser raises), [datetime.isoformat], and the two
    geodesic helpers [_estimate_eta_minutes] (an [int]) and [_haversine],
    which are floating-point trigonometry. *)
Variable fromisoformat : string -> option datetime.
Variable isoformat : datetime -> string.
Variable _estimate_eta_minutes : LatLon -> LatLon -> Z.
Variable _haversine : LatLon -> LatLon -> Q.

Definition update_eta (cfg : UAConfig) (now : datetime) (current_gps : LatLon)
  : M t (option DelayResult) :=
  self <- get ;;
  match _reservation self, _station_location self with
  | Some reservation, Some station_location =>
      modify (set_last_gps current_gps) ;;;
      let eta_minutes := _estimate_eta_minutes current_gps station_location in
      let new_eta_time := now + eta_minutes * usec_per_minute in
      match fromisoformat (start_time reservation) with
      | None => raise (ValueError "Invalid isoformat string")
      | Some reserved_start =>
          let delay := minutes_between new_eta_time reserved_start in
          if delay <=? 0 then ret None
          else
            ret (Some {| delay_reservation_id := reservation_id reservation;
                         new_eta := isoformat new_eta_time;
                         delay_minutes := delay;
                         severity := classify cfg delay |})
      end
  | _, _ => ret None
  end.

(** [receive_telemetry]: last write wins; the first IN_PROGRESS status
    latches the session start.  The two clock readings of one call are taken
    as one instant. *)
Definition receive_telemetry (now : datetime) (data : TelemetryData)
  : M t unit :=
  modify (fun self => {|
    vehicle_id := vehicle_id self;
    _reservation := _reservation self;
    _station_location := _station_location self;
    _last_gps := _last_gps self;
    _telemetry := Some data;
    _session_start_time :=
      match _session_start_time self with
      | Some s => Some s
      | None =>
          if String.eqb (session_status data) "IN_PROGRESS" then Some now
          else None
      end;
    _last_telemetry_time := Some now |}).

(** [telemetry_timeout_detected]: the guard on the telemetry instant comes
    first. *)
Definition telemetry_timeout_detected (cfg : UAConfig) (now : datetime)
  (self : t) : bool :=
  match _last_telemetry_time self with
  | None => false
  | Some last =>
      if now - last >? telemetry_timeout_sec cfg * usec_per_second then true
      else false
  end.

Definition handle_fault (alert : FaultAlert) : bool :=
  String.eqb (fault_severity alert) "CRITICAL".

Definition check_session_status (self : t) : bool :=
  match _telemetry self with
  | None => false
  | Some tel => String.eqb (session_status tel) "COMPLETED"
  end.

Definition detect_session_complete (now : datetime) (self : t)
  : result (option SessionResult) :=
  match _reservation self, _telemetry self with
  | Some reservation, Some tel =>
      let wait :=
        match _session_start_time self with
        | None => Ok 0
        | Some started =>
            match fromisoformat (start_time reservation) with
            | None => Raise (ValueError "Invalid isoformat string")
            | Some reserved_start => Ok (minutes_between started reserved_start)
            end
        end in
      match wait with
      | Raise e => Raise e
      | Ok wait_minutes =>
          let dist :=
            match _last_gps self, _station_location self with
            | Some gps, Some loc => _haversine gps loc
            | _, _ => 0%Q
            end in
          Ok (Some {|
            session_id := "session_" ++ reservation_id reservation;
            result_reservation_id := reservation_id reservation;
            result_station_id := station_id reservation;
            actual_cost := 0;
            actual_wait_min := Z.max wait_minutes 0;
            distance_km := dist;
            energy_delivered_kwh := energy_kwh tel;
            session_start := option_map isoformat (_session_start_time self);
            session_end := isoformat now;
            user_satisfaction := None;
            chosen_station_rank := 1 |})
      end
  | _, _ => Ok None
  end.

(** The calls a client can make on a monitor, and the monitor after one. *)
Inductive call : Type :=
| StartSessionMonitoring (r : option Reservation) (loc : option LatLon)
| UpdateEta (now : datetime) (gps : LatLon)
| ReceiveTelemetry (now : datetime) (data : TelemetryData)
| TelemetryTimeoutDetected (now : datetime)
| HandleFault (alert : FaultAlert)
| CheckSessionStatus
| DetectSessionComplete (now : datetime).

Definition step (cfg : UAConfig) (self : t) (c : call) : t :=
  match c with
  | StartSessionMonitoring r loc => snd (start_session_monitoring r loc self)
  | UpdateEta now gps => snd (update_eta cfg now gps self)
  | ReceiveTelemetry now data => snd (receive_telemetry now data self)
  | TelemetryTimeoutDetected _ | HandleFault _ | CheckSessionStatus
  | DetectSessionComplete _ => self
  end.

Definition run (cfg : UAConfig) (self : t) (calls : list call) : t :=
  fold_left (step cfg) calls self.

End Monitor.

(** A reservation and a position for the examples. *)
Definition sample_reservation : Reservation := {|
  reservation_id := "res_1";
  station_id := "st_1";
  slot_id := "slot_1";
  res_vehicle_id := "vehicle_001";
  start_time := "1970-01-01T00:00:00";
  duration_min := 60;
  status := "CONFIRMED"
|}.

Definition origin : LatLon := {| lat := 0; lon := 0 |}.

(** Whether telemetry arrived since the monitor was created or last
    rebound: scanning the history from its latest call backwards, a
    [ReceiveTelemetry] is met before any [StartSessionMonitoring]. *)
Fixpoint telemetry_since_binding (newest_first : list call) : bool :=
  match newest_first with
  | [] => false
  | ReceiveTelemetry _ _ :: _ => true
  | StartSessionMonitoring _ _ :: _ => false
  | _ :: older => telemetry_since_binding older
  end.

End SessionMonitor.

(** ** Components/recommendation_manager.py *)

Module RecommendationManager.

Record StationOption : Type := {
  station_id : string;
  station_name : string;
  rank : Z;
  estimated_wait_min : Z;
  estimated_cost : Q;
  distance_km : Q;
  available_slots : Z;
  charger_type : string;
  power_kw : Q;
  operator : string
}.

Record MicroSlotOffer : Type := {
  micro_slot_id : string;
  offer_station_id : string;
  available_window_start : string;
  available_window_end : string
}.

Record SelectionResult : Type := {
  action : string;
  selected_station_id : option string
}.

Record t : Type := {
  _ranked_stations : list StationOption;
  _deferred : bool;
  _pending_micro_offer : option MicroSlotOffer
}.

Definition init : t :=
  {| _ranked_stations := []; _deferred := false; _pending_micro_offer := None |}.

(** [str.upper] on the ASCII letters. *)
Definition upper_ascii (c : ascii) : ascii :=
  let n := nat_of_ascii c in
  if ((97 <=? n) && (n <=? 122))%nat then ascii_of_nat (n - 32) else c.

Fixpoint upper (s : string) : string :=
  match s with
  | EmptyString => EmptyString
  | String c rest => String (upper_ascii c) (upper rest)
  end.

(** Truth value of an optional string: [None] and the empty string are
    false. *)
Definition truthy (s : option string) : bool :=
  match s with
  | None => false
  | Some EmptyString => false
  | Some _ => true
  end.

Definition receive_ranked_stations (stations : list StationOption) : M t unit :=
  modify (fun self => {|
    _ranked_stations := stations;
    _deferred := false;
    _pending_micro_offer := _pending_micro_offer self |}).

Definition display_stations (self : t) : list StationOption :=
  _ranked_stations self.

(** [any(s.station_id == station_id for s in self._ranked_stations)] *)
Definition listed (station_id' : option string) (stations : list StationOption)
  : bool :=
  match station_id' with
  | None => false
  | Some sid => existsb (fun s => String.eqb (station_id s) sid) stations
  end.

Definition handle_user_selection (action' : string)
  (station_id' : option string) : M t SelectionResult :=
  let action' := upper action' in
  self <- get ;;
  if String.eqb action' "ACCEPT" then
    if negb (truthy station_id') then
      raise (ValueError "Station ID required for ACCEPT")
    else if negb (listed station_id' (_ranked_stations self)) then
      raise (ValueError "Invalid station ID — not in CA list")
    else ret {| action := "ACCEPT"; selected_station_id := station_id' |}
  else if String.eqb action' "REJECT" then
    ret {| action := "REJECT"; selected_station_id := None |}
  else if String.eqb action' "DEFER" then
    modify (fun self => {|
      _ranked_stations := _ranked_stations self;
      _deferred := true;
      _pending_micro_offer := _pending_micro_offer self |}) ;;;
    ret {| action := "DEFER"; selected_station_id := None |}
  else raise (ValueError "Invalid action. Use ACCEPT/REJECT/DEFER").

End RecommendationManager.

(** ** storage/local_cache.py *)

Module LocalCache.

(** A row of the [sync_queue] table.  [created_at] holds the instant whose
    ISO text the column stores. *)
Record sync_row : Type := {
  id : Z;
  payload : string;
  endpoint : string;
  created_at : datetime
}.

(** The table, rows in insertion order, with the AUTOINCREMENT counter:
    the largest id handed out so far. *)
Record sync_queue : Type := {
  rows : list sync_row;
  sequence : Z
}.

Record t : Type := {
  current_vehicle_context : option ContextManager.VehicleContext;
  active_reservation : option SessionMonitor.Reservation;
  ranked_stations_cache : option (list RecommendationManager.StationOption);
  current_session_telemetry : option SessionMonitor.TelemetryData;
  expected_arrival_time : option datetime;
  pending_micro_slot_offer : option RecommendationManager.MicroSlotOffer;
  session_result : option SessionMonitor.SessionResult;
  db : sync_queue
}.

(** [__init__] on a fresh database file. *)
Definition init : t := {|
  current_vehicle_context := None;
  active_reservation := None;
  ranked_stations_cache := None;
  current_session_telemetry := None;
  expected_arrival_time := None;
  pending_micro_slot_offer := None;
  session_result := None;
  db := {| rows := []; sequence := 0 |}
|}.

Definition set_db (q : sync_queue) (self : t) : t := {|
  current_vehicle_context := current_vehicle_context self;
  active_reservation := active_reservation self;
  ranked_stations_cache := ranked_stations_cache self;
  current_session_telemetry := current_session_telemetry self;
  expected_arrival_time := expected_arrival_time self;
  pending_micro_slot_offer := pending_micro_slot_offer self;
  session_result := session_result self;
  db := q |}.

(** [INSERT INTO sync_queue (payload, endpoint, created_at)] with the
    payload already serialised. *)
Definition insert_row (payload_json endpoint' : string) (now : datetime)
  (q : sync_queue) : sync_queue :=
  let new_id := sequence q + 1 in
  {| rows := rows q ++ [ {| id := new_id; payload := payload_json;
                            endpoint := endpoint'; created_at := now |} ];
     sequence := new_id |}.

(** [DELETE FROM sync_queue WHERE id=?] *)
Definition delete_row (item_id : Z) (q : sync_queue) : sync_queue :=
  {| rows := filter (fun r => negb (id r =? item_id)) (rows q);
     sequence := sequence q |}.

(** What PRIMARY KEY AUTOINCREMENT maintains: ids are distinct and none
    exceeds the counter. *)
Definition well_formed (q : sync_queue) : Prop :=
  NoDup (map id (rows q)) /\ Forall (fun r => id r <= sequence q) (rows q).

Section Json.
Context {Payload : Type}.

(** [json.dumps] on the payload dictionaries. *)
Variable json_dumps : Payload -> string.

Definition enqueue_sync (endpoint' : string) (payload' : Payload)
  (now : datetime) (self : t) : t :=
  set_db (insert_row (json_dumps payload') endpoint' now (db self)) self.

End Json.

(** [SELECT id, payload, endpoint FROM sync_queue]: the rows in table
    order, which is insertion order. *)
Definition get_pending_sync_items (self : t) : list (Z * string * string) :=
  map (fun r => (id r, payload r, endpoint r)) (rows (db self)).

Definition remove_sync_item (item_id : Z) (self : t) : t :=
  set_db (delete_row item_id (db self)) self.

Definition clear_session_data (self : t) : t := {|
  current_vehicle_context := current_vehicle_context self;
  active_reservation := None;
  ranked_stations_cache := ranked_stations_cache self;
  current_session_telemetry := None;
  expected_arrival_time := None;
  pending_micro_slot_offer := None;
  session_result := None;
  db := db self |}.

End LocalCache.

(** ** storage/server_sync.py *)

Module ServerSync.
Import Config.

Section Sync.
Context {Payload : Type}.

(** [json.dumps], [json.loads] ([None] when the text does not decode), and
    the backend: whether the request made after [n] earlier ones, to a given
    URL with a given body, comes back without raising. *)
Variable json_dumps : Payload -> string.
Variable json_loads : string -> option Payload.
Variable net : nat -> string -> Payload -> bool.

(** What the engine does, in order. *)
Inductive event : Type :=
| Posted (url : string) (body : Payload) (ok : bool)
| Enqueued (endpoint : string) (body : Payload)
| Removed (item_id : Z)
| Slept (secs : Z).

Record t : Type := {
  local_cache : LocalCache.t;
  trace : list event
}.

Definition requests (tr : list event) : nat :=
  List.length
    (filter (fun e => match e with Posted _ _ _ => true | _ => false end) tr).

Definition emit (e : event) : M t unit :=
  modify (fun w => {| local_cache := local_cache w; trace := trace w ++ [e] |}).

Definition on_cache (f : LocalCache.t -> LocalCache.t) : M t unit :=
  modify (fun w => {| local_cache := f (local_cache w); trace := trace w |}).

(** [requests.post(url, json=body, timeout=5)] and [raise_for_status()]:
    [true] when neither raises. *)
Definition post (url : string) (body : Payload) : M t bool :=
  w <- get ;;
  let ok := net (requests (trace w)) url body in
  emit (Posted url body ok) ;;;
  ret ok.

Definition url_of (cfg : UAConfig) (endpoint : string) : string :=
  (server_base_url cfg ++ "/" ++ endpoint)%string.

Definition enqueue (endpoint : string) (body : Payload) (now : datetime)
  : M t unit :=
  on_cache (LocalCache.enqueue_sync json_dumps endpoint body now) ;;;
  emit (Enqueued endpoint body).

(** [push_weights]: the request is made first; the handler of a failed
    request enqueues. *)
Definition push_weights (cfg : UAConfig) (now : datetime) (user_id : string)
  (weight_dict : Payload) : M t unit :=
  ok <- post (url_of cfg "save_weights") weight_dict ;;
  if ok then ret tt
  else enqueue "save_weights" weight_dict now.

Definition push_session (cfg : UAConfig) (now : datetime)
  (session_dict : Payload) : M t unit :=
  ok <- post (url_of cfg "save_session") session_dict ;;
  if ok then ret tt
  else enqueue "save_session" session_dict now.

(** The loop of [process_sync_queue] over the snapshot.  [json.loads] runs
    before the [try]: a row that does not decode ends the pass. *)
Fixpoint process_items (cfg : UAConfig) (items : list (Z * string * string))
  : M t unit :=
  match items with
  | [] => ret tt
  | (item_id, payload_json, endpoint) :: rest =>
      match json_loads payload_json with
      | None => raise (ValueError "JSONDecodeError")
      | Some body =>
          ok <- post (url_of cfg endpoint) body ;;
          (if ok then
             on_cache (LocalCache.remove_sync_item item_id) ;;;
             emit (Removed item_id)
           else emit (Slept 1)) ;;;
          process_items cfg rest
      end
  end.

Definition process_sync_queue (cfg : UAConfig) : M t unit :=
  w <- get ;;
  process_items cfg (LocalCache.get_pending_sync_items (local_cache w)).

(** The requests of a trace, in order. *)
Fixpoint posted (tr : list event) : list (string * Payload * bool) :=
  match tr with
  | [] => []
  | Posted url body ok :: tr' => (url, body, ok) :: posted tr'
  | _ :: tr' => posted tr'
  end.

(** "Log before send" on the trace of one write: an append to the outbox
    comes before the first request. *)
Fixpoint logged_before_send (tr : list event) : bool :=
  match tr with
  | [] => false
  | Enqueued _ _ :: _ => true
  | Posted _ _ _ :: _ => false
  | _ :: tr' => logged_before_send tr'
  end.

(** The events a pass over [rs] emits when the first request is the
    [n]-th: one request per row, then the removal or the pause. *)
Fixpoint pass_events (cfg : UAConfig) (n : nat) (rs : list LocalCache.sync_row)
  : list event :=
  match rs with
  | [] => []
  | r :: rest =>
      match json_loads (LocalCache.payload r) with
      | None => []
      | Some body =>
          let url := url_of cfg (LocalCache.endpoint r) in
          let ok := net n url body in
          Posted url body ok
          :: (if ok then Removed (LocalCache.id r) else Slept 1)
          :: pass_events cfg (S n) rest
      end
  end.

(** The ids a trace removed from the table. *)
Fixpoint removed (tr : list event) : list Z :=
  match tr with
  | [] => []
  | Removed i :: tr' => i :: removed tr'
  | _ :: tr' => removed tr'
  end.

(** A row whose payload text decodes, as every row written by
    [enqueue_sync] does. *)
Definition loadable (r : LocalCache.sync_row) : Prop :=
  json_loads (LocalCache.payload r) <> None.

End Sync.

Arguments event Payload : clear implicits.
Arguments t Payload : clear implicits.

Arguments loadable {Payload} json_loads r.

(** An engine over a fresh cache, for the examples. *)
Definition fresh : t string :=
  {| local_cache := LocalCache.init; trace := [] |}.

End ServerSync.

(** ** orchestrator/ua_orchestrator.py *)

Module Orchestrator.
Import Config.

Inductive UAState : Type :=
| IDLE
| MONITORING
| REQUESTING_STATIONS
| AWAITING_USER_SELECTION
| RESERVATION_CONFIRMED
| SESSION_ACTIVE
| SESSION_COMPLETED
| DEFERRED
| ERROR.

(** The calls the orchestrator makes on the Coordinator client. *)
Inductive ca_call : Type :=
| SendChargingRequest (ctx : ContextManager.VehicleContext)
| ConfirmStationSelection (station_id : string).

(** The orchestrator object; [ca_calls] records, in order, the calls made
    on [self.ca_client]. *)
Record t : Type := {
  user_id : string;
  vehicle_id : string;
  recommendation_manager : RecommendationManager.t;
  session_monitor : SessionMonitor.t;
  cache : LocalCache.t;
  state : UAState;
  running : bool;
  ca_calls : list ca_call
}.

(** [__init__] *)
Definition init (uid vid : string) : t := {|
  user_id := uid;
  vehicle_id := vid;
  recommendation_manager := RecommendationManager.init;
  session_monitor := SessionMonitor.init vid;
  cache := LocalCache.init;
  state := IDLE;
  running := false;
  ca_calls := []
|}.

Definition set_state (st : UAState) (o : t) : t := {|
  user_id := user_id o; vehicle_id := vehicle_id o;
  recommendation_manager := recommendation_manager o;
  session_monitor := session_monitor o; cache := cache o;
  state := st; running := running o; ca_calls := ca_calls o |}.

Definition set_cache (c : LocalCache.t) (o : t) : t := {|
  user_id := user_id o; vehicle_id := vehicle_id o;
  recommendation_manager := recommendation_manager o;
  session_monitor := session_monitor o; cache := c;
  state := state o; running := running o; ca_calls := ca_calls o |}.

Definition set_recommendation_manager (rm : RecommendationManager.t) (o : t)
  : t := {|
  user_id := user_id o; vehicle_id := vehicle_id o;
  recommendation_manager := rm;
  session_monitor := session_monitor o; cache := cache o;
  state := state o; running := running o; ca_calls := ca_calls o |}.

Definition set_session_monitor (sm : SessionMonitor.t) (o : t) : t := {|
  user_id := user_id o; vehicle_id := vehicle_id o;
  recommendation_manager := recommendation_manager o;
  session_monitor := sm; cache := cache o;
  state := state o; running := running o; ca_calls := ca_calls o |}.

Definition record_ca_call (c : ca_call) (o : t) : t := {|
  user_id := user_id o; vehicle_id := vehicle_id o;
  recommendation_manager := recommendation_manager o;
  session_monitor := session_monitor o; cache := cache o;
  state := state o; running := running o; ca_calls := ca_calls o ++ [c] |}.

(** A method call on a component: the component runs, and the orchestrator
    holds it as the call left it, whether it returned or raised. *)
Definition on_recommendation_manager {A} (m : M RecommendationManager.t A)
  : M t A :=
  fun o =>
    let '(r, rm) := m (recommendation_manager o) in
    (r, set_recommendation_manager rm o).

Definition on_session_monitor {A} (m : M SessionMonitor.t A) : M t A :=
  fun o =>
    let '(r, sm) := m (session_monitor o) in
    (r, set_session_monitor sm o).

Definition set_current_vehicle_context (ctx : ContextManager.VehicleContext)
  (c : LocalCache.t) : LocalCache.t := {|
  LocalCache.current_vehicle_context := Some ctx;
  LocalCache.active_reservation := LocalCache.active_reservation c;
  LocalCache.ranked_stations_cache := LocalCache.ranked_stations_cache c;
  LocalCache.current_session_telemetry := LocalCache.current_session_telemetry c;
  LocalCache.expected_arrival_time := LocalCache.expected_arrival_time c;
  LocalCache.pending_micro_slot_offer := LocalCache.pending_micro_slot_offer c;
  LocalCache.session_result := LocalCache.session_result c;
  LocalCache.db := LocalCache.db c |}.

Definition set_active_reservation (r : SessionMonitor.Reservation)
  (c : LocalCache.t) : LocalCache.t := {|
  LocalCache.current_vehicle_context := LocalCache.current_vehicle_context c;
  LocalCache.active_reservation := Some r;
  LocalCache.ranked_stations_cache := LocalCache.ranked_stations_cache c;
  LocalCache.current_session_telemetry := LocalCache.current_session_telemetry c;
  LocalCache.expected_arrival_time := LocalCache.expected_arrival_time c;
  LocalCache.pending_micro_slot_offer := LocalCache.pending_micro_slot_offer c;
  LocalCache.session_result := LocalCache.session_result c;
  LocalCache.db := LocalCache.db c |}.

Definition set_ranked_stations_cache
  (l : list RecommendationManager.StationOption) (c : LocalCache.t)
  : LocalCache.t := {|
  LocalCache.current_vehicle_context := LocalCache.current_vehicle_context c;
  LocalCache.active_reservation := LocalCache.active_reservation c;
  LocalCache.ranked_stations_cache := Some l;
  LocalCache.current_session_telemetry := LocalCache.current_session_telemetry c;
  LocalCache.expected_arrival_time := LocalCache.expected_arrival_time c;
  LocalCache.pending_micro_slot_offer := LocalCache.pending_micro_slot_offer c;
  LocalCache.session_result := LocalCache.session_result c;
  LocalCache.db := LocalCache.db c |}.

Definition set_session_result (r : option SessionMonitor.SessionResult)
  (c : LocalCache.t) : LocalCache.t := {|
  LocalCache.current_vehicle_context := LocalCache.current_vehicle_context c;
  LocalCache.active_reservation := LocalCache.active_reservation c;
  LocalCache.ranked_stations_cache := LocalCache.ranked_stations_cache c;
  LocalCache.current_session_telemetry := LocalCache.current_session_telemetry c;
  LocalCache.expected_arrival_time := LocalCache.expected_arrival_time c;
  LocalCache.pending_micro_slot_offer := LocalCache.pending_micro_slot_offer c;
  LocalCache.session_result := r;
  LocalCache.db := LocalCache.db c |}.

(** The call [self.session_monitor.start_session_monitoring(reservation,
    *more)]: the method has two required parameters after [self], and
    Python binds the arguments before the body runs, raising [TypeError]
    when [station_location] is left without a value or when an argument is
    left over. *)
Definition call_start_session_monitoring
  (reservation : option SessionMonitor.Reservation)
  (more : list (option SessionMonitor.LatLon)) : M SessionMonitor.t unit :=
  match more with
  | [station_location] =>
      SessionMonitor.start_session_monitoring reservation station_location
  | [] =>
      raise (TypeError
        "start_session_monitoring() missing 1 required positional argument: 'station_location'")
  | _ :: _ :: _ =>
      raise (TypeError
        "start_session_monitoring() takes 3 positional arguments but more were given")
  end.

Section Cycle.

(** The environment of a cycle: the date parser and printer and the two
    geodesic helpers of the session monitor, the distance helper of the
    context manager, the Coordinator (the reply to the call made after [n]
    earlier ones, [Raise] once the client's retries are spent), and the
    preference manager's treatment of a finished session. *)
Variable fromisoformat : string -> option datetime.
Variable isoformat : datetime -> string.
Variable _haversine : SessionMonitor.LatLon -> SessionMonitor.LatLon -> Q.
Variable _estimate_distance :
  ContextManager.LatLon -> ContextManager.LatLon -> Q.
Variable send_charging_request :
  nat -> ContextManager.VehicleContext ->
  result (list RecommendationManager.StationOption).
Variable confirm_station_selection :
  nat -> string -> result SessionMonitor.Reservation.
Variable learn : SessionMonitor.SessionResult -> result unit.

Definition _handle_monitoring (cfg : UAConfig) (now : datetime) : M t unit :=
  o <- get ;;
  let ctx := ContextManager.get_current_snapshot cfg (vehicle_id o) now in
  modify (fun o => set_cache (set_current_vehicle_context ctx (cache o)) o) ;;;
  if ContextManager.should_trigger_charging _estimate_distance
       (ContextManager.collect_vehicle_data now)
       ContextManager._scheduled_departure_trigger cfg ctx
  then modify (set_state REQUESTING_STATIONS)
  else ret tt.

(** [_request_stations_from_ca]: everything after the two reads runs inside
    the [try], whose handler returns to MONITORING. *)
Definition _request_stations_from_ca : M t unit :=
  o <- get ;;
  match LocalCache.current_vehicle_context (cache o) with
  | None => modify (set_state MONITORING)
  | Some vehicle_context =>
      modify (record_ca_call (SendChargingRequest vehicle_context)) ;;;
      match send_charging_request (List.length (ca_calls o)) vehicle_context with
      | Raise _ => modify (set_state MONITORING)
      | Ok [] => modify (set_state MONITORING)
      | Ok ranked_stations =>
          modify (fun o =>
                    set_cache (set_ranked_stations_cache ranked_stations
                                 (cache o)) o) ;;;
          on_recommendation_manager
            (RecommendationManager.receive_ranked_stations ranked_stations) ;;;
          modify (set_state AWAITING_USER_SELECTION)
      end
  end.

Definition _confirm_reservation (station_id : string) : M t unit :=
  o <- get ;;
  modify (record_ca_call (ConfirmStationSelection station_id)) ;;;
  match confirm_station_selection (List.length (ca_calls o)) station_id with
  | Ok reservation =>
      modify (fun o => set_cache (set_active_reservation reservation (cache o)) o) ;;;
      modify (set_state RESERVATION_CONFIRMED)
  | Raise _ => modify (set_state MONITORING)
  end.

(** [handle_user_action]: the validation by the recommendation manager
    comes first and its exception is not caught; the dispatch that follows
    compares the action as it was passed. *)
Definition handle_user_action (action : string) (station_id : option string)
  : M t unit :=
  on_recommendation_manager
    (RecommendationManager.handle_user_selection action station_id) ;;;
  if String.eqb action "ACCEPT" && RecommendationManager.truthy station_id
  then
    match station_id with
    | Some sid => _confirm_reservation sid
    | None => ret tt
    end
  else if String.eqb action "REJECT" then ret tt
  else if String.eqb action "DEFER" then modify (set_state DEFERRED)
  else ret tt.

(** [_start_session_monitoring]: the call passes the reservation alone. *)
Definition _start_session_monitoring : M t unit :=
  o <- get ;;
  let reservation := LocalCache.active_reservation (cache o) in
  on_session_monitor (call_start_session_monitoring reservation []) ;;;
  modify (set_state SESSION_ACTIVE).

Definition _monitor_session (now : datetime) : M t unit :=
  o <- get ;;
  if SessionMonitor.check_session_status (session_monitor o) then
    match SessionMonitor.detect_session_complete fromisoformat isoformat
            _haversine now (session_monitor o) with
    | Raise e => raise e
    | Ok session_result =>
        modify (fun o => set_cache (set_session_result session_result (cache o)) o) ;;;
        modify (set_state SESSION_COMPLETED)
    end
  else ret tt.

Definition _reset_workflow : M t unit :=
  modify (fun o => set_cache (LocalCache.clear_session_data (cache o)) o) ;;;
  modify (set_state MONITORING).

Definition _finalize_session : M t unit :=
  o <- get ;;
  match LocalCache.session_result (cache o) with
  | Some result =>
      match learn result with
      | Ok _ => _reset_workflow
      | Raise e => raise e
      end
  | None => _reset_workflow
  end.

(** [_run_cycle]: dispatch on the current state; IDLE and ERROR match no
    branch. *)
Definition _run_cycle (cfg : UAConfig) (now : datetime) : M t unit :=
  o <- get ;;
  match state o with
  | MONITORING => _handle_monitoring cfg now
  | REQUESTING_STATIONS => _request_stations_from_ca
  | AWAITING_USER_SELECTION => ret tt
  | RESERVATION_CONFIRMED => _start_session_monitoring
  | SESSION_ACTIVE => _monitor_session now
  | SESSION_COMPLETED => _finalize_session
  | DEFERRED => ret tt
  | IDLE | ERROR => ret tt
  end.

(** One turn of the loop of [start]: an exception out of the cycle sets
    the state to ERROR. *)
Definition loop_iteration (cfg : UAConfig) (now : datetime) (o : t) : t :=
  match _run_cycle cfg now o with
  | (Ok _, o') => o'
  | (Raise _, o') => set_state ERROR o'
  end.

End Cycle.

(** An orchestrator for the examples: one station published, a reservation
    held. *)
Definition sample_station : RecommendationManager.StationOption := {|
  RecommendationManager.station_id := "st_1";
  RecommendationManager.station_name := "Station One";
  RecommendationManager.rank := 1;
  RecommendationManager.estimated_wait_min := 5;
  RecommendationManager.estimated_cost := 10;
  RecommendationManager.distance_km := 2;
  RecommendationManager.available_slots := 3;
  RecommendationManager.charger_type := "CCS";
  RecommendationManager.power_kw := 50;
  RecommendationManager.operator := "op"
|}.

Definition awaiting : t :=
  set_state AWAITING_USER_SELECTION
    (set_recommendation_manager
       {| RecommendationManager._ranked_stations := [sample_station];
          RecommendationManager._deferred := false;
          RecommendationManager._pending_micro_offer := None |}
       (init "user_001" "vehicle_001")).

Definition confirmed : t :=
  set_state RESERVATION_CONFIRMED
    (set_cache
       (set_active_reservation SessionMonitor.sample_reservation LocalCache.init)
       (init "user_001" "vehicle_001")).

End Orchestrator.

(** ** Histories of the sync queue *)

Module Outbox.

Section Ops.
Context {Payload : Type}.
Variable json_dumps : Payload -> string.

(** The calls that reach the cache of the sync queue. *)
Inductive op : Type :=
| EnqueueSync (endpoint : string) (payload : Payload) (now : datetime)
| RemoveSyncItem (item_id : Z)
| ClearSessionData.

Definition step (c : LocalCache.t) (o : op) : LocalCache.t :=
  match o with
  | EnqueueSync endpoint payload now =>
      LocalCache.enqueue_sync json_dumps endpoint payload now c
  | RemoveSyncItem item_id => LocalCache.remove_sync_item item_id c
  | ClearSessionData => LocalCache.clear_session_data c
  end.

Definition run (c : LocalCache.t) (ops : list op) : LocalCache.t :=
  fold_left step ops c.

End Ops.

Arguments op Payload : clear implicits.

(** Ids in strictly ascending order, all above [lo]. *)
Fixpoint ascending (lo : Z) (ids : list Z) : Prop :=
  match ids with
  | [] => True
  | i :: rest => lo < i /\ ascending i rest
  end.

(** The invariant of the table along a history. *)
Definition table_ok (c : LocalCache.t) : Prop :=
  let q := LocalCache.db c in
  0 <= LocalCache.sequence q /\
  ascending 0 (map LocalCache.id (LocalCache.rows q)) /\
  Forall (fun i => i <= LocalCache.sequence q)
    (map LocalCache.id (LocalCache.rows q)).

End Outbox.

(** ** Histories of the session monitor *)

Module MonitorHistory.
Import SessionMonitor.

(** The calls that rebind the monitor, and those that deliver telemetry. *)
Definition rebinding (c : call) : bool :=
  match c with StartSessionMonitoring _ _ => true | _ => false end.

Definition receiving (c : call) : bool :=
  match c with ReceiveTelemetry _ _ => true | _ => false end.

(** The order of the three severities of a delay. *)
Definition severity_rank (s : string) : nat :=
  if String.eqb s "NO_SHOW" then 2
  else if String.eqb s "MAJOR" then 1
  else 0.

(** A telemetry record for the examples. *)
Definition sample_telemetry (status : string) : TelemetryData := {|
  charging_progress_pct := 40;
  power_kw := 50;
  energy_kwh := 12;
  session_status := status;
  timestamp := "1970-01-01T00:10:00"
|}.

End MonitorHistory.

(** ** Histories of user selections *)

Module Selections.

(** A series of calls of [handle_user_selection], each with its action and
    station id; a call that raises leaves the manager as it is. *)
Definition run (rm : RecommendationManager.t)
  (calls : list (string * option string)) : RecommendationManager.t :=
  fold_left
    (fun rm call =>
       snd (RecommendationManager.handle_user_selection (fst call) (snd call) rm))
    calls rm.

End Selections.

(** ** The event handlers of the orchestrator and the Station client *)

Module Handlers.
Import Config.

(** The orchestrator with the traffic of its two further channels: the
    cancellation requests made on the Coordinator client (reservation id and
    reason) and the requests that reached the Station service. *)
Record t : Type := {
  orchestrator : Orchestrator.t;
  cancellations : list (string * string);
  sa_requests : list (string * string * string)
}.

Definition on_orchestrator (f : Orchestrator.t -> Orchestrator.t) : M t unit :=
  modify (fun w => {| orchestrator := f (orchestrator w);
                      cancellations := cancellations w;
                      sa_requests := sa_requests w |}).

Definition record_cancellation (c : string * string) : M t unit :=
  modify (fun w => {| orchestrator := orchestrator w;
                      cancellations := cancellations w ++ [c];
                      sa_requests := sa_requests w |}).

Definition record_sa_request (r : string * string * string) : M t unit :=
  modify (fun w => {| orchestrator := orchestrator w;
                      cancellations := cancellations w;
                      sa_requests := sa_requests w ++ [r] |}).

Section Events.

(** [CAClient.request_slot_cancellation]: the reply to the request made
    after [n] earlier ones, [Raise] once the retries are spent.  The Station
    service: whether the request made after [n] earlier ones comes back
    without raising. *)
Variable request_slot_cancellation : nat -> string -> string -> result unit.
Variable sa_net : nat -> string * string * string -> bool.

(** [handle_fault_alert]: the monitor classifies; a critical fault asks the
    Coordinator to cancel the active reservation and only then sets the
    state. *)
Definition handle_fault_alert (alert : SessionMonitor.FaultAlert) : M t unit :=
  w <- get ;;
  if SessionMonitor.handle_fault alert then
    match LocalCache.active_reservation (Orchestrator.cache (orchestrator w)) with
    | None =>
        raise (AttributeError
                 "'NoneType' object has no attribute 'reservation_id'")
    | Some reservation =>
        let rid := SessionMonitor.reservation_id reservation in
        record_cancellation (rid, "FAULT") ;;;
        match request_slot_cancellation (List.length (cancellations w))
                rid "FAULT" with
        | Ok _ => on_orchestrator (Orchestrator.set_state Orchestrator.MONITORING)
        | Raise e => raise e
        end
    end
  else ret tt.

(** [SAClient.send_micro_slot_decision]: one request; its failure is logged
    and raised again. *)
Definition send_micro_slot_decision (micro_slot_id decision vehicle_id : string)
  : M t unit :=
  w <- get ;;
  record_sa_request (micro_slot_id, decision, vehicle_id) ;;;
  if sa_net (List.length (sa_requests w)) (micro_slot_id, decision, vehicle_id)
  then ret tt
  else raise (RequestException "micro_slot_decision").

(** A call of [self.sa_client.send_micro_slot_decision] with the given
    positional arguments: the method has three required parameters after
    [self], and Python raises [TypeError] before the body runs when the
    count differs. *)
Definition call_send_micro_slot_decision (args : list string) : M t unit :=
  match args with
  | [micro_slot_id; decision; vehicle_id] =>
      send_micro_slot_decision micro_slot_id decision vehicle_id
  | _ =>
      raise (TypeError
        "send_micro_slot_decision() missing or surplus positional arguments")
  end.

(** [handle_micro_slot_decision]: the call passes the slot id and the
    decision. *)
Definition handle_micro_slot_decision (slot_id decision : string) : M t unit :=
  call_send_micro_slot_decision [slot_id; decision].

End Events.

Section Loop.

Variable fromisoformat : string -> option datetime.
Variable isoformat : datetime -> string.
Variable _haversine : SessionMonitor.LatLon -> SessionMonitor.LatLon -> Q.
Variable _estimate_distance :
  ContextManager.LatLon -> ContextManager.LatLon -> Q.
Variable send_charging_request :
  nat -> ContextManager.VehicleContext ->
  result (list RecommendationManager.StationOption).
Variable learn : SessionMonitor.SessionResult -> result unit.

(** The loop of [start] over the instants of its turns. *)
Definition run_loop (cfg : UAConfig) (o : Orchestrator.t)
  (instants : list datetime) : Orchestrator.t :=
  fold_left
    (fun o now =>
       Orchestrator.loop_iteration fromisoformat isoformat _haversine
         _estimate_distance send_charging_request learn cfg now o)
    instants o.

End Loop.

(** The states in which a cycle matches no branch or an empty one. *)
Definition parked (st : Orchestrator.UAState) : bool :=
  match st with
  | Orchestrator.IDLE | Orchestrator.AWAITING_USER_SELECTION
  | Orchestrator.DEFERRED | Orchestrator.ERROR => true
  | _ => false
  end.

(** A world around an orchestrator, nothing sent yet. *)
Definition around (o : Orchestrator.t) : t :=
  {| orchestrator := o; cancellations := []; sa_requests := [] |}.

End Handlers.

(** ** Lifecycles of a reservation *)

Module ReservationLifecycle.
Import ReservationModels.


(** A series of transition calls, each at its instant; a call that raises
    leaves the reservation as it is. *)
Definition run (r : Reservation) (calls : list (transition * datetime))
  : Reservation :=
  fold_left (fun r call => snd (apply_transition (fst call) (snd call) r))
    calls r.

(** A reservation as the constructor's defaults leave it. *)
Definition fresh (r : Reservation) : Prop :=
  status r = CONFIRMED /\ activated_at r = None /\ completed_at r = None /\
  cancelled_at r = None /\ cancellation_reason r = None.


End ReservationLifecycle.

(** ** models/station_models.py: the ranked list wrapper *)

Module StationModels.

Inductive ChargerType : Type := AC | DC_FAST | ULTRA_FAST.

Inductive StationStatus : Type := AVAILABLE | LIMITED | FULL | OUT_OF_SERVICE.

Record StationLocation : Type := { latitude : Q; longitude : Q }.

Record MicroSlot : Type := {
  slot_id : string;
  start_time_iso : string;
  end_time_iso : string;
  price_modifier : Q
}.

Record StationOption : Type := {
  station_id : string;
  station_name : string;
  operator_name : string;
  location : StationLocation;
  charger_type : ChargerType;
  max_power_kw : Q;
  distance_km : Q;
  estimated_travel_time_min : Q;
  estimated_wait_time_min : Q;
  estimated_price : Q;
  composite_score : Q;
  status : StationStatus;
  available_slots : Z;
  micro_slots : list MicroSlot
}.

(** The immutable wrapper; the tuple of stations is a list. *)
Record RankedStationList : Type := { stations : list StationOption }.

(** The constructor with its [__post_init__]: an empty tuple is refused. *)
Definition make (l : list StationOption) : result RankedStationList :=
  match l with
  | [] => Raise (ValueError "Ranked station list cannot be empty")
  | _ => Ok {| stations := l |}
  end.

(** [top]: [self.stations[0]], an index error on an empty tuple. *)
Definition top (self : RankedStationList) : result StationOption :=
  match stations self with
  | st :: _ => Ok st
  | [] => Raise (PlainException "IndexError: tuple index out of range")
  end.

(** [get_by_id]: the first station with the id, scanning in rank order. *)
Fixpoint find_by_id (l : list StationOption) (sid : string)
  : option StationOption :=
  match l with
  | [] => None
  | station :: rest =>
      if String.eqb (station_id station) sid then Some station
      else find_by_id rest sid
  end.

Definition get_by_id (self : RankedStationList) (sid : string)
  : option StationOption :=
  find_by_id (stations self) sid.

Definition to_list (self : RankedStationList) : list StationOption :=
  stations self.

Definition len (self : RankedStationList) : nat := List.length (stations self).

End StationModels.

(** ** models/preference_manager.py: the session history *)

Module PreferenceHistory.

Section History.
Context {Session : Type}.

(** [record_session]: append, then drop the oldest entry once the list is
    longer than 100. *)
Definition record_session (session_result : Session) (history : list Session)
  : list Session :=
  let history := history ++ [session_result] in
  if (100 <? List.length history)%nat then tl history else history.

(** A series of recordings, oldest first. *)
Definition run (history : list Session) (sessions : list Session)
  : list Session :=
  fold_left (fun h x => record_session x h) sessions history.

(** The last [n] entries of a list. *)
Definition lastn (n : nat) (l : list Session) : list Session :=
  skipn (List.length l - n) l.

End History.

End PreferenceHistory.

(** ** Objects for the examples *)

Module Samples.

(** A decoder that accepts one text only. *)
Definition strict_loads (text : string) : option string :=
  if String.eqb text "{}" then Some text else None.

Definition good_row : LocalCache.sync_row :=
  {| LocalCache.id := 1; LocalCache.payload := "{}";
     LocalCache.endpoint := "save_session"; LocalCache.created_at := 1 |}.

Definition bad_row : LocalCache.sync_row :=
  {| LocalCache.id := 2; LocalCache.payload := "{";
     LocalCache.endpoint := "save_weights"; LocalCache.created_at := 2 |}.

(** An engine with two rows pending, the second of which does not decode
    under [strict_loads]. *)
Definition two_pending : ServerSync.t string :=
  {| ServerSync.local_cache :=
       LocalCache.enqueue_sync (fun body : string => body)
         "save_weights" "{" 2
         (LocalCache.enqueue_sync (fun body : string => body)
            "save_session" "{}" 1 LocalCache.init);
     ServerSync.trace := [] |}.

(** A monitor bound to the sample reservation. *)
Definition bound_monitor : SessionMonitor.t :=
  snd (SessionMonitor.start_session_monitoring
         (Some SessionMonitor.sample_reservation)
         (Some SessionMonitor.origin) (SessionMonitor.init "vehicle_001")).

(** An orchestrator about to ask the Coordinator, with a context cached. *)
Definition requesting : Orchestrator.t :=
  Orchestrator.set_state Orchestrator.REQUESTING_STATIONS
    (Orchestrator.set_cache
       (Orchestrator.set_current_vehicle_context
          (ContextManager.get_current_snapshot Config.default "vehicle_001" 0)
          LocalCache.init)
       (Orchestrator.init "user_001" "vehicle_001")).

Definition in_state (st : Orchestrator.UAState) : Orchestrator.t :=
  Orchestrator.set_state st (Orchestrator.init "user_001" "vehicle_001").

Definition station : StationModels.StationOption := {|
  StationModels.station_id := "st_1";
  StationModels.station_name := "Station One";
  StationModels.operator_name := "op";
  StationModels.location :=
    {| StationModels.latitude := 0; StationModels.longitude := 0 |};
  StationModels.charger_type := StationModels.DC_FAST;
  StationModels.max_power_kw := 50;
  StationModels.distance_km := 2;
  StationModels.estimated_travel_time_min := 4;
  StationModels.estimated_wait_time_min := 5;
  StationModels.estimated_price := 10;
  StationModels.composite_score := 1;
  StationModels.status := StationModels.AVAILABLE;
  StationModels.available_slots := 3;
  StationModels.micro_slots := []
|}.

End Samples.

(* ================================================================== *)
(** * Theorems *)
(* ================================================================== *)

(** Unfolds the plumbing of a stateful computation. *)
Ltac run_m := unfold bind, get, modify, ret, raise.

Section ContextManagerFacts.
Import Config ContextManager.

Lemma Qle_bool_false_lt (x y : Q) : Qle_bool x y = false -> (y < x)%Q.
Proof.
  intro H. apply Qnot_le_lt. intro Hle.
  apply Qle_bool_iff in Hle. congruence.
Qed.

Lemma Qlt_Qle_bool_false (x y : Q) : (y < x)%Q -> Qle_bool x y = false.
Proof.
  intro H. destruct (Qle_bool x y) eqn:E; [|reflexivity].
  apply Qle_bool_iff in E. exfalso. exact (Qlt_not_le _ _ H E).
Qed.

Lemma Qle_bool_down (s1 s2 t : Q) :
  (s1 <= s2)%Q -> Qle_bool s2 t = true -> Qle_bool s1 t = true.
Proof.
  intros Hle H. apply Qle_bool_iff. apply Qle_bool_iff in H.
  eapply Qle_trans; eauto.
Qed.

Lemma compute_urgency_monotone (cfg : UAConfig) (s1 s2 : Q) :
  (s1 <= s2)%Q ->
  (strictness (compute_urgency cfg s2) <= strictness (compute_urgency cfg s1))%nat.
Proof.
  intro Hle. unfold compute_urgency.
  destruct (Qle_bool s2 (soc_emergency_threshold cfg)) eqn:E2;
    [rewrite (Qle_bool_down _ _ _ Hle E2); simpl; lia|].
  destruct (Qle_bool s2 (soc_high_threshold cfg)) eqn:H2;
    [rewrite (Qle_bool_down _ _ _ Hle H2);
     destruct (Qle_bool s1 (soc_emergency_threshold cfg)); simpl; lia|].
  destruct (Qle_bool s2 (soc_medium_threshold cfg)) eqn:M2;
    [rewrite (Qle_bool_down _ _ _ Hle M2)|];
    destruct (Qle_bool s1 (soc_emergency_threshold cfg));
    destruct (Qle_bool s1 (soc_high_threshold cfg));
    try destruct (Qle_bool s1 (soc_medium_threshold cfg)); simpl; lia.
Qed.

(** C7. [compute_urgency] is a step function of the state of charge with
    three ascending thresholds: it answers Emergency exactly on
    [soc <= emergency], High exactly on [emergency < soc <= high], Medium
    exactly on [high < soc <= medium] and Low exactly above [medium]; a
    value equal to a threshold therefore falls in the stricter tier, and a
    higher state of charge never yields a stricter tier. *)
Theorem compute_urgency_step_function (cfg : UAConfig)
  (Hasc : ascending_thresholds cfg) :
  (forall soc, compute_urgency cfg soc = EMERGENCY <->
               (soc <= soc_emergency_threshold cfg)%Q) /\
  (forall soc, compute_urgency cfg soc = HIGH <->
               (soc_emergency_threshold cfg < soc)%Q /\
               (soc <= soc_high_threshold cfg)%Q) /\
  (forall soc, compute_urgency cfg soc = MEDIUM <->
               (soc_high_threshold cfg < soc)%Q /\
               (soc <= soc_medium_threshold cfg)%Q) /\
  (forall soc, compute_urgency cfg soc = LOW <->
               (soc_medium_threshold cfg < soc)%Q) /\
  (forall s1 s2, (s1 <= s2)%Q ->
     (strictness (compute_urgency cfg s2)
      <= strictness (compute_urgency cfg s1))%nat).
Proof.
  destruct Hasc as [Heh Hhm].
  assert (Hem : (soc_emergency_threshold cfg < soc_medium_threshold cfg)%Q)
    by (eapply Qlt_trans; eauto).
  split; [|split; [|split; [|split]]]; try (intros s1 s2; apply compute_urgency_monotone);
    intro soc; unfold compute_urgency;
    destruct (Qle_bool soc (soc_emergency_threshold cfg)) eqn:E;
    destruct (Qle_bool soc (soc_high_threshold cfg)) eqn:H;
    destruct (Qle_bool soc (soc_medium_threshold cfg)) eqn:Md;
    try (apply Qle_bool_iff in E); try (apply Qle_bool_iff in H);
    try (apply Qle_bool_iff in Md);
    try (apply Qle_bool_false_lt in E); try (apply Qle_bool_false_lt in H);
    try (apply Qle_bool_false_lt in Md);
    (split; [intro Heq; try discriminate Heq; try split; try assumption
            | intro Hr; try reflexivity; exfalso ]);
    try match type of Hr with _ /\ _ => destruct Hr as [Hr1 Hr2] end;
    try match goal with
      | Hlt : (?a < ?b)%Q, Hle : (?b <= ?a)%Q |- False =>
          exact (Qlt_not_le _ _ Hlt Hle)
      | Hlt : (?a < ?b)%Q, Hle : (?b <= ?c)%Q, Hlt2 : (?c < ?a)%Q |- False =>
          exact (Qlt_irrefl _ (Qlt_trans _ _ _ Hlt (Qle_lt_trans _ _ _ Hle Hlt2)))
      end.
Qed.

(** C8. A context whose state of charge is at or below the trigger
    threshold fires the search whatever the distance utility, the re-sampled
    manual flag, the scheduled-departure predicate and its enabling flag
    say. *)
Theorem should_trigger_on_low_soc
  (dist : LatLon -> LatLon -> Q) (resample : RawVehicleData)
  (scheduled : bool) (cfg : UAConfig) (ctx : VehicleContext) :
  (state_of_charge ctx <= soc_trigger_threshold cfg)%Q ->
  should_trigger_charging dist resample scheduled cfg ctx = true.
Proof.
  intro H. unfold should_trigger_charging.
  apply Qle_bool_iff in H. now rewrite H.
Qed.

End ContextManagerFacts.

Lemma compute_urgency_step_function_witness :
  ContextManager.ascending_thresholds Config.default /\
  ContextManager.compute_urgency Config.default (25 # 100)
    = ContextManager.HIGH /\
  ContextManager.compute_urgency Config.default (26 # 100)
    = ContextManager.MEDIUM.
Proof.
  assert (Hasc : ContextManager.ascending_thresholds Config.default)
    by (split; reflexivity).
  split; [exact Hasc|].
  destruct (compute_urgency_step_function Config.default Hasc)
    as (_ & Hhigh & Hmed & _).
  split.
  - apply Hhigh. split; [reflexivity | discriminate].
  - apply Hmed. split; [reflexivity | discriminate].
Defined.

Lemma should_trigger_on_low_soc_witness :
  ContextManager.should_trigger_charging
    (fun _ _ => 0%Q) (ContextManager.collect_vehicle_data 0)
    ContextManager._scheduled_departure_trigger Config.default
    (ContextManager.build_vehicle_context Config.default "vehicle_001"
       {| ContextManager.raw_gps_location :=
            {| ContextManager.lat := 0; ContextManager.lon := 0 |};
          ContextManager.raw_state_of_charge := 8 # 100;
          ContextManager.raw_remaining_range_km := 400;
          ContextManager.raw_destination := None;
          ContextManager.raw_planned_route := [];
          ContextManager.raw_current_datetime := 0;
          ContextManager.user_trigger := false |}) = true.
Proof.
  apply should_trigger_on_low_soc. simpl. discriminate.
Defined.

Section ReservationFacts.
Import ReservationModels.

Lemma status_eqb_eq (a b : ReservationStatus) :
  status_eqb a b = true <-> a = b.
Proof. destruct a, b; simpl; split; intro H; congruence. Qed.

(** C3 as the specification states it fails on the code: cancelling an
    Active reservation is accepted, although Active to Cancelled is not an
    edge of the stated graph. *)
Lemma mark_cancelled_from_active_accepted :
  let r := sample ACTIVE in
  ~ spec_step (status r) CANCELLED /\
  fst (mark_cancelled FAULT 100 r) = Ok tt /\
  status (snd (mark_cancelled FAULT 100 r)) = CANCELLED.
Proof.
  simpl. split; [|split; reflexivity].
  intro H. inversion H.
Qed.

(** C3, amended.  For every reservation and every transition operation, the
    call either succeeds, and then the status moves along an edge of the
    graph the guards accept and reaches the operation's target, or raises
    [ValueError], and then the reservation is left exactly as it was and the
    requested edge is not in that graph.  The graph is Confirmed to Active,
    Active to Completed, Confirmed to NoShow, and any status other than
    Completed and Cancelled to Cancelled. *)
Theorem transition_follows_guards (op : transition) (now : datetime)
  (r : Reservation) :
  match apply_transition op now r with
  | (Ok _, r') =>
      code_step (status r) (status r') /\ status r' = target op /\
      reservation_id r' = reservation_id r /\ station_id r' = station_id r /\
      slot_id r' = slot_id r /\ reserved_price r' = reserved_price r
  | (Raise e, r') =>
      r' = r /\ (exists msg, e = ValueError msg) /\
      ~ code_step (status r) (target op)
  end.
Proof.
  destruct r as [rid sid uid vid slot st en price s cr ac co ca reason].
  destruct op, s; cbn;
    repeat split;
    try (constructor; discriminate);
    try (eexists; reflexivity);
    try (intro H; inversion H; congruence).
Qed.

End ReservationFacts.

Section RetryFacts.
Import Config Retry.
Context {A : Type}.
Variable func : nat -> result A.














(** C5.  The claim fails on [RetryPolicy.execute] at an attempt budget of
    zero: the loop body never runs, no invocation is made, and instead of
    raising a terminal failure the method runs off its end and hands [None]
    to the caller, whatever the wrapped call would have done.  The sibling
    loop [_post_with_retry] with an empty range of attempts does raise. *)
Theorem execute_zero_budget_returns_none (d f : Q) (delay : Z) :
  execute func {| max_attempts := 0; initial_delay := d; backoff_factor := f |}
  = (Ok NoneValue, []) /\
  post_loop func (range 0 0) 0%nat delay
  = (Raise (PlainException "CA unreachable after retries"), []).
Proof. split; reflexivity. Qed.

End RetryFacts.

Section SessionMonitorFacts.
Import Config SessionMonitor.

Variable fromisoformat : string -> option datetime.
Variable isoformat : datetime -> string.
Variable eta : LatLon -> LatLon -> Z.

Lemma update_eta_keeps_telemetry_time (cfg : UAConfig) (now : datetime)
  (gps : LatLon) (self : t) :
  _last_telemetry_time (snd (update_eta fromisoformat isoformat eta cfg now gps self))
  = _last_telemetry_time self.
Proof.
  unfold update_eta. run_m.
  destruct (_reservation self) as [r|]; [|reflexivity].
  destruct (_station_location self) as [loc|]; [|reflexivity].
  destruct (fromisoformat (start_time r)) as [start|]; [|reflexivity].
  destruct (minutes_between _ _ <=? 0); reflexivity.
Qed.

Lemma run_snoc (cfg : UAConfig) (self : t) (calls : list call) (c : call) :
  run fromisoformat isoformat eta cfg self (calls ++ [c])
  = step fromisoformat isoformat eta cfg
      (run fromisoformat isoformat eta cfg self calls) c.
Proof. unfold run. now rewrite fold_left_app. Qed.

Lemma no_telemetry_no_instant (cfg : UAConfig) (vid : string)
  (calls : list call) :
  telemetry_since_binding (rev calls) = false ->
  _last_telemetry_time (run fromisoformat isoformat eta cfg (init vid) calls)
  = None.
Proof.
  induction calls as [|c calls IH] using rev_ind; intro H; [reflexivity|].
  rewrite run_snoc. rewrite rev_app_distr in H. simpl in H.
  destruct c; simpl in *; try discriminate; auto.
  - destruct r; reflexivity.
  - rewrite update_eta_keeps_telemetry_time. auto.
Qed.

(** C10.  Whatever calls were made on a monitor since it was created, if
    none of those made since its creation or its latest rebinding is a
    telemetry reception, [telemetry_timeout_detected] answers false at every
    instant. *)
Theorem no_telemetry_never_times_out (cfg : UAConfig) (vid : string)
  (calls : list call) (now : datetime) :
  telemetry_since_binding (rev calls) = false ->
  telemetry_timeout_detected cfg now
    (run fromisoformat isoformat eta cfg (init vid) calls) = false.
Proof.
  intro H. unfold telemetry_timeout_detected.
  now rewrite (no_telemetry_no_instant cfg vid calls H).
Qed.

Lemma Zquot_minutes_nonpos (d : Z) : d <= 0 -> Z.quot d usec_per_minute <= 0.
Proof.
  intro H. unfold usec_per_minute.
  rewrite <- (Z.opp_involutive d), Z.quot_opp_l by lia.
  pose proof (Z.quot_pos (- d) 60000000 ltac:(lia) ltac:(lia)). lia.
Qed.

(** The outcome of [update_eta] on a bound monitor whose start time
    parses. *)
Lemma update_eta_bound (cfg : UAConfig) (now : datetime) (gps : LatLon)
  (self : t) (r : Reservation) (loc : LatLon) (start : datetime) :
  _reservation self = Some r ->
  _station_location self = Some loc ->
  fromisoformat (start_time r) = Some start ->
  let arrival := now + eta gps loc * usec_per_minute in
  let delay := minutes_between arrival start in
  fst (update_eta fromisoformat isoformat eta cfg now gps self)
  = Ok (if delay <=? 0 then None
        else Some {| delay_reservation_id := reservation_id r;
                     new_eta := isoformat arrival;
                     delay_minutes := delay;
                     severity := classify cfg delay |}).
Proof.
  intros Hr Hloc Hstart. unfold update_eta. run_m.
  rewrite Hr, Hloc, Hstart. cbn zeta.
  destruct (minutes_between _ _ <=? 0); reflexivity.
Qed.

(** C6.  On a monitor bound to a reservation whose start time parses, with
    the major threshold below the no-show threshold: a projected arrival at
    or before the committed start yields no result; once the whole-minute
    delay is positive, a delay equal to the major threshold is MAJOR, equal
    to the no-show threshold is NO_SHOW, one minute under the major
    threshold is MINOR and one minute under the no-show threshold is
    MAJOR. *)
Theorem update_eta_severity_boundaries (cfg : UAConfig) (now : datetime)
  (gps : LatLon) (self : t) (r : Reservation) (loc : LatLon)
  (start : datetime) :
  _reservation self = Some r ->
  _station_location self = Some loc ->
  fromisoformat (start_time r) = Some start ->
  major_delay_threshold_min cfg < no_show_threshold_min cfg ->
  let arrival := now + eta gps loc * usec_per_minute in
  let delay := minutes_between arrival start in
  let answer := fst (update_eta fromisoformat isoformat eta cfg now gps self) in
  (arrival <= start -> answer = Ok None) /\
  (0 < delay ->
   exists d, answer = Ok (Some d) /\ delay_minutes d = delay /\
     (delay = major_delay_threshold_min cfg -> severity d = "MAJOR") /\
     (delay = no_show_threshold_min cfg -> severity d = "NO_SHOW") /\
     (delay = major_delay_threshold_min cfg - 1 -> severity d = "MINOR") /\
     (delay = no_show_threshold_min cfg - 1 -> severity d = "MAJOR")).
Proof.
  intros Hr Hloc Hstart Hasc arrival delay answer.
  subst answer. rewrite (update_eta_bound cfg now gps self r loc start Hr Hloc Hstart).
  fold arrival. fold delay. split.
  - intro Hle.
    assert (Hd : delay <= 0)
      by (apply Zquot_minutes_nonpos; lia).
    apply Z.leb_le in Hd. now rewrite Hd.
  - intro Hpos.
    assert (Hd : (delay <=? 0) = false) by (apply Z.leb_gt; lia).
    rewrite Hd. eexists. split; [reflexivity|]. split; [reflexivity|].
    cbn [severity]. unfold classify.
    repeat split; intro Heq;
      repeat match goal with
      | |- context [?a >=? ?b] =>
          let E := fresh "E" in
          destruct (a >=? b) eqn:E;
          rewrite ?Z.geb_leb in E;
          [apply Z.leb_le in E | apply Z.leb_gt in E]
      end; try reflexivity; lia.
Qed.

End SessionMonitorFacts.

Lemma no_telemetry_never_times_out_witness :
  SessionMonitor.telemetry_timeout_detected Config.default 999000000000
    (SessionMonitor.run (fun _ => Some 0) (fun _ => "") (fun _ _ => 0)
       Config.default (SessionMonitor.init "vehicle_001")
       [SessionMonitor.ReceiveTelemetry 5
          {| SessionMonitor.charging_progress_pct := 0;
             SessionMonitor.power_kw := 0;
             SessionMonitor.energy_kwh := 0;
             SessionMonitor.session_status := "IN_PROGRESS";
             SessionMonitor.timestamp := "" |};
        SessionMonitor.StartSessionMonitoring (Some SessionMonitor.sample_reservation)
          (Some SessionMonitor.origin);
        SessionMonitor.UpdateEta 7 SessionMonitor.origin]) = false.
Proof.
  apply no_telemetry_never_times_out. reflexivity.
Defined.

Lemma update_eta_severity_boundaries_witness :
  exists d,
    fst (SessionMonitor.update_eta (fun _ => Some 0) (fun _ => "")
           (fun _ _ => 15) Config.default 0 SessionMonitor.origin
           (snd (SessionMonitor.start_session_monitoring
                   (Some SessionMonitor.sample_reservation) (Some SessionMonitor.origin)
                   (SessionMonitor.init "vehicle_001")))) = Ok (Some d) /\
    SessionMonitor.severity d = "MAJOR".
Proof.
  destruct (update_eta_severity_boundaries (fun _ => Some 0) (fun _ => "")
              (fun _ _ => 15) Config.default 0 SessionMonitor.origin
              (snd (SessionMonitor.start_session_monitoring
                      (Some SessionMonitor.sample_reservation) (Some SessionMonitor.origin)
                      (SessionMonitor.init "vehicle_001")))
              SessionMonitor.sample_reservation SessionMonitor.origin 0
              eq_refl eq_refl eq_refl eq_refl) as [_ H].
  destruct (H eq_refl) as (d & Hd & _ & Hmajor & _).
  exists d. split; [exact Hd | exact (Hmajor eq_refl)].
Defined.

Section ServerSyncFacts.
Import Config ServerSync.
Context {Payload : Type}.
Variable json_dumps : Payload -> string.
Variable json_loads : string -> option Payload.
Variable net : nat -> string -> Payload -> bool.

Lemma requests_app (tr1 tr2 : list (event Payload)) :
  requests (tr1 ++ tr2) = (requests tr1 + requests tr2)%nat.
Proof. unfold requests. now rewrite filter_app, length_app. Qed.

Lemma requests_posted (tr : list (event Payload)) u b ok :
  requests (tr ++ [Posted u b ok]) = S (requests tr).
Proof. rewrite requests_app. unfold requests. simpl. lia. Qed.

Lemma requests_quiet (tr : list (event Payload)) (e : event Payload) :
  match e with Posted _ _ _ => False | _ => True end ->
  requests (tr ++ [e]) = requests tr.
Proof.
  intro H. rewrite requests_app. unfold requests.
  destruct e; simpl; [destruct H| | |]; lia.
Qed.

Lemma posted_app (tr1 tr2 : list (event Payload)) :
  posted (tr1 ++ tr2) = posted tr1 ++ posted tr2.
Proof.
  induction tr1 as [|e tr1 IH]; [reflexivity|].
  destruct e; simpl; now rewrite IH.
Qed.

(** The table invariant holds initially and is kept by insertion and
    deletion, so the rows of a pass carry distinct ids. *)
Lemma well_formed_init : LocalCache.well_formed (LocalCache.db LocalCache.init).
Proof. split; constructor. Qed.

Lemma well_formed_insert_row (text endpoint : string) (now : datetime)
  (q : LocalCache.sync_queue) :
  LocalCache.well_formed q ->
  LocalCache.well_formed (LocalCache.insert_row text endpoint now q).
Proof.
  intros [Hnd Hle]. split; cbn.
  - rewrite map_app. cbn.
    apply NoDup_app; [exact Hnd | repeat constructor; intros [] |].
    intros z Hz [<-|[]]. rewrite in_map_iff in Hz.
    destruct Hz as (r & Hid & Hin).
    rewrite Forall_forall in Hle. specialize (Hle r Hin). lia.
  - apply Forall_app. split.
    + eapply Forall_impl; [|exact Hle]. cbn. intros r Hr. lia.
    + repeat constructor. cbn. lia.
Qed.

Lemma well_formed_delete_row (item_id : Z) (q : LocalCache.sync_queue) :
  LocalCache.well_formed q ->
  LocalCache.well_formed (LocalCache.delete_row item_id q).
Proof.
  intros [Hnd Hle]. split; cbn.
  - clear Hle. induction (LocalCache.rows q) as [|r l IH]; [constructor|].
    cbn in *. inversion Hnd as [|x l' Hnot Hnd']; subst.
    destruct (negb (LocalCache.id r =? item_id)); [|auto].
    cbn. constructor; [|auto].
    intro Hin. apply Hnot. rewrite in_map_iff in *.
    destruct Hin as (r' & Hid & Hin'). exists r'. split; [exact Hid|].
    now apply filter_In in Hin'.
  - rewrite Forall_forall in *. intros r Hin.
    apply filter_In in Hin. now apply Hle.
Qed.

(** C1 as the specification states it fails on the code: with the backend
    reachable the write is sent and never appended to the outbox, and with
    the backend down the request comes first and the append only after it
    has failed. *)
Lemma push_session_sends_before_logging :
  let up := snd (push_session (fun body => body) (fun _ _ _ => true)
                   Config.default 0 "{}" fresh) in
  let down := snd (push_session (fun body => body) (fun _ _ _ => false)
                     Config.default 0 "{}" fresh) in
  logged_before_send (trace up) = false /\
  LocalCache.rows (LocalCache.db (local_cache up)) = [] /\
  logged_before_send (trace down) = false /\
  trace down
  = [Posted "http://localhost:9000/api/save_session" "{}" false;
     Enqueued "save_session" "{}"].
Proof. repeat split. Qed.

(** C1, amended.  [push_session] and [push_weights] make the remote request
    first.  When it succeeds nothing is appended to the outbox; when it
    fails the write is appended, once, under the next id, and is then among
    the pending items of the sync pass. *)
Theorem push_enqueues_on_failure (cfg : UAConfig) (now : datetime)
  (user_id : string) (body : Payload) (w : t Payload) :
  let q := LocalCache.db (local_cache w) in
  let outcome endpoint :=
    net (requests (trace w)) (url_of cfg endpoint) body in
  let after endpoint w' :=
    trace w'
    = trace w ++ Posted (url_of cfg endpoint) body (outcome endpoint)
        :: (if outcome endpoint then [] else [Enqueued endpoint body]) /\
    LocalCache.rows (LocalCache.db (local_cache w'))
    = LocalCache.rows q
      ++ (if outcome endpoint then []
          else [ {| LocalCache.id := LocalCache.sequence q + 1;
                    LocalCache.payload := json_dumps body;
                    LocalCache.endpoint := endpoint;
                    LocalCache.created_at := now |} ]) /\
    (outcome endpoint = false ->
     In (LocalCache.sequence q + 1, json_dumps body, endpoint)
        (LocalCache.get_pending_sync_items (local_cache w'))) in
  (fst (push_session json_dumps net cfg now body w) = Ok tt /\
   after "save_session" (snd (push_session json_dumps net cfg now body w))) /\
  (fst (push_weights json_dumps net cfg now user_id body w) = Ok tt /\
   after "save_weights"
     (snd (push_weights json_dumps net cfg now user_id body w))).
Proof.
  cbv zeta.
  unfold push_session, push_weights, post, enqueue, on_cache, emit,
    bind, get, modify, ret. cbn [fst snd].
  split.
  - destruct (net (requests (trace w)) (url_of cfg "save_session") body);
      cbn [fst snd trace local_cache].
    + rewrite app_nil_r. repeat split. discriminate.
    + rewrite <- app_assoc. repeat split.
      intros _. unfold LocalCache.get_pending_sync_items. cbn.
      rewrite map_app. apply in_or_app. right. left. reflexivity.
  - destruct (net (requests (trace w)) (url_of cfg "save_weights") body);
      cbn [fst snd trace local_cache].
    + rewrite app_nil_r. repeat split. discriminate.
    + rewrite <- app_assoc. repeat split.
      intros _. unfold LocalCache.get_pending_sync_items. cbn.
      rewrite map_app. apply in_or_app. right. left. reflexivity.
Qed.

Lemma filter_filter {X} (f g : X -> bool) (l : list X) :
  filter f (filter g l) = filter (fun x => g x && f x) l.
Proof.
  induction l as [|x l IH]; [reflexivity|]. simpl.
  destruct (g x); simpl; [destruct (f x)|]; now rewrite IH.
Qed.

(** The table after a series of deletions. *)
Lemma rows_after_removals (ids : list Z) :
  forall c : LocalCache.t,
    LocalCache.rows (LocalCache.db
      (fold_left (fun c i => LocalCache.remove_sync_item i c) ids c))
    = filter (fun r => negb (existsb (Z.eqb (LocalCache.id r)) ids))
        (LocalCache.rows (LocalCache.db c)).
Proof.
  induction ids as [|i ids IH]; intro c; simpl.
  - induction (LocalCache.rows (LocalCache.db c)) as [|r l IHl];
      [reflexivity|]. simpl. now rewrite <- IHl.
  - rewrite IH. cbn. rewrite filter_filter. apply filter_ext.
    intro r. now rewrite negb_orb.
Qed.

Lemma removed_app (tr1 tr2 : list (event Payload)) :
  removed (tr1 ++ tr2) = removed tr1 ++ removed tr2.
Proof.
  induction tr1 as [|e tr1 IH]; [reflexivity|].
  destruct e; simpl; now rewrite IH.
Qed.

(** One pass over the rows [rs]: it runs to its end, emits [pass_events]
    and deletes the rows those events removed. *)
Lemma process_items_run (cfg : UAConfig) (rs : list LocalCache.sync_row) :
  forall w : t Payload,
    Forall (loadable json_loads) rs ->
    process_items json_loads net cfg
      (map (fun r => (LocalCache.id r, LocalCache.payload r,
                      LocalCache.endpoint r)) rs) w
    = (Ok tt,
       {| local_cache :=
            fold_left (fun c i => LocalCache.remove_sync_item i c)
              (removed (pass_events json_loads net cfg (requests (trace w)) rs))
              (local_cache w);
          trace :=
            trace w ++ pass_events json_loads net cfg (requests (trace w)) rs |}).
Proof.
  induction rs as [|r rs IH]; intros w Hload.
  - simpl. rewrite app_nil_r. now destruct w.
  - inversion Hload as [|r' rs' Hr Hrs]; subst.
    unfold loadable in Hr. cbn [map process_items pass_events].
    destruct (json_loads (LocalCache.payload r)) as [body|]; [|congruence].
    unfold bind at 1. unfold post, bind, get, emit, modify, ret.
    cbn [fst snd trace local_cache].
    destruct (net (requests (trace w)) (url_of cfg (LocalCache.endpoint r)) body)
      eqn:Hok; unfold on_cache, modify; cbn [fst snd trace local_cache];
      rewrite IH by assumption; cbn [trace local_cache];
      rewrite requests_quiet by exact I; rewrite requests_posted;
      rewrite <- !app_assoc; reflexivity.
Qed.

(** The requests of a pass, one per row and in row order, and which of
    them the backend accepted. *)
Lemma posted_pass_events (cfg : UAConfig) (rs : list LocalCache.sync_row) :
  forall n,
    Forall (loadable json_loads) rs ->
    map (fun p => (fst (fst p), Some (snd (fst p))))
      (posted (pass_events json_loads net cfg n rs))
    = map (fun r => (url_of cfg (LocalCache.endpoint r),
                     json_loads (LocalCache.payload r))) rs /\
    (forall i u b ok,
       nth_error (posted (pass_events json_loads net cfg n rs)) i
       = Some (u, b, ok) -> ok = net (n + i)%nat u b) /\
    (forall z, In z (removed (pass_events json_loads net cfg n rs)) <->
       exists i r u b,
         nth_error rs i = Some r /\
         nth_error (posted (pass_events json_loads net cfg n rs)) i
         = Some (u, b, true) /\ LocalCache.id r = z).
Proof.
  induction rs as [|r rs IH]; intros n Hload.
  - simpl. split; [reflexivity|]. split.
    + intros [|i] u b ok H; discriminate.
    + intro z. split; [intros []|].
      intros ([|i] & r & u & b & H & _); discriminate.
  - inversion Hload as [|r' rs' Hr Hrs]; subst.
    destruct (IH (S n) Hrs) as (IHa & IHc & IHd).
    unfold loadable in Hr. cbn [pass_events].
    destruct (json_loads (LocalCache.payload r)) as [body|] eqn:Hbody;
      [|congruence].
    set (url := url_of cfg (LocalCache.endpoint r)).
    set (tail := pass_events json_loads net cfg (S n) rs) in *.
    assert (Hposted :
      posted (Posted url body (net n url body)
              :: (if net n url body then Removed (LocalCache.id r) else Slept 1)
              :: tail)
      = (url, body, net n url body) :: posted tail)
      by (destruct (net n url body); reflexivity).
    assert (Hremoved :
      removed (Posted url body (net n url body)
               :: (if net n url body then Removed (LocalCache.id r) else Slept 1)
               :: tail)
      = (if net n url body then [LocalCache.id r] else []) ++ removed tail)
      by (destruct (net n url body); reflexivity).
    cbv zeta. fold url. rewrite Hposted, Hremoved. split; [|split].
    + cbn [map fst snd]. rewrite IHa, Hbody. reflexivity.
    + intros [|i] u b ok H.
      * cbn in H. injection H as <- <- <-. now rewrite Nat.add_0_r.
      * cbn in H. rewrite <- plus_n_Sm. now apply IHc.
    + intro z. split.
      * intro Hin. apply in_app_or in Hin. destruct Hin as [Hin|Hin].
        -- destruct (net n url body) eqn:Hok; [|destruct Hin].
           destruct Hin as [<-|[]].
           exists 0%nat, r, url, body. repeat split; reflexivity.
        -- apply IHd in Hin. destruct Hin as (i & r0 & u & b & H1 & H2 & H3).
           exists (S i), r0, u, b. repeat split; assumption.
      * intros ([|i] & r0 & u & b & H1 & H2 & H3).
        -- cbn in H1, H2. injection H1 as <-.
           injection H2 as <- <- Hok. rewrite Hok.
           left. exact H3.
        -- apply in_or_app. right. apply IHd.
           exists i, r0, u, b. repeat split; assumption.
Qed.

(** C9.  A pass over a table whose rows decode and carry distinct ids runs
    to its end and makes one request per pending row, in row (enqueue)
    order, whatever the earlier requests returned; the table is afterwards
    the old one filtered, and the row of the [i]-th request is still in it
    exactly when that request failed. *)
Theorem process_sync_queue_pass (cfg : UAConfig) (w : t Payload) :
  let rows0 := LocalCache.rows (LocalCache.db (local_cache w)) in
  Forall (loadable json_loads) rows0 ->
  NoDup (map LocalCache.id rows0) ->
  let w' := snd (process_sync_queue json_loads net cfg w) in
  let sent := skipn (List.length (posted (trace w))) (posted (trace w')) in
  fst (process_sync_queue json_loads net cfg w) = Ok tt /\
  posted (trace w') = posted (trace w) ++ sent /\
  map (fun p => (fst (fst p), Some (snd (fst p)))) sent
  = map (fun r => (url_of cfg (LocalCache.endpoint r),
                   json_loads (LocalCache.payload r))) rows0 /\
  (forall i u b ok, nth_error sent i = Some (u, b, ok) ->
     ok = net (requests (trace w) + i)%nat u b) /\
  (exists keep,
     LocalCache.rows (LocalCache.db (local_cache w')) = filter keep rows0) /\
  (forall i r u b ok,
     nth_error rows0 i = Some r -> nth_error sent i = Some (u, b, ok) ->
     (In r (LocalCache.rows (LocalCache.db (local_cache w'))) <-> ok = false)).
Proof.
  intros rows0 Hload Hnodup. cbv zeta.
  unfold process_sync_queue, bind, get. cbn [fst snd].
  unfold LocalCache.get_pending_sync_items. fold rows0.
  rewrite (process_items_run cfg rows0 w Hload). cbn [fst snd trace local_cache].
  set (E := pass_events json_loads net cfg (requests (trace w)) rows0).
  destruct (posted_pass_events cfg rows0 (requests (trace w)) Hload)
    as (Ha & Hc & Hd). fold E in Ha, Hc, Hd.
  assert (Hsent :
    skipn (List.length (posted (trace w))) (posted (trace w ++ E)) = posted E).
  { rewrite posted_app, skipn_app, Nat.sub_diag, skipn_all. reflexivity. }
  rewrite Hsent, rows_after_removals. fold rows0.
  split; [reflexivity|]. split; [apply posted_app|].
  split; [exact Ha|]. split; [exact Hc|]. split; [eexists; reflexivity|].
  intros i r u b ok Hr Hp. rewrite filter_In, negb_true_iff.
  split.
  - intros [_ Hnot]. destruct ok; [|reflexivity]. exfalso.
    assert (Hin : In (LocalCache.id r) (removed E))
      by (apply Hd; exists i, r, u, b; repeat split; assumption).
    assert (Hex : existsb (Z.eqb (LocalCache.id r)) (removed E) = true)
      by (apply existsb_exists; exists (LocalCache.id r); split;
          [assumption | apply Z.eqb_refl]).
    congruence.
  - intros ->. split; [eapply nth_error_In; eassumption|].
    destruct (existsb (Z.eqb (LocalCache.id r)) (removed E)) eqn:Hex;
      [|reflexivity]. exfalso.
    apply existsb_exists in Hex. destruct Hex as (z & Hz & Heq).
    apply Z.eqb_eq in Heq. subst z.
    apply Hd in Hz. destruct Hz as (j & r' & u' & b' & Hr' & Hp' & Hid).
    assert (Hij : j = i).
    { apply (proj1 (NoDup_nth_error (map LocalCache.id rows0)) Hnodup).
      - rewrite length_map. apply nth_error_Some. congruence.
      - rewrite !nth_error_map, Hr, Hr'. simpl. congruence. }
    subst j. congruence.
Qed.

End ServerSyncFacts.

Section OrchestratorFacts.
Import Config Orchestrator.

Variable fromisoformat : string -> option datetime.
Variable isoformat : datetime -> string.
Variable haversine : SessionMonitor.LatLon -> SessionMonitor.LatLon -> Q.
Variable distance : ContextManager.LatLon -> ContextManager.LatLon -> Q.
Variable send_charging_request :
  nat -> ContextManager.VehicleContext ->
  result (list RecommendationManager.StationOption).
Variable confirm_station_selection :
  nat -> string -> result SessionMonitor.Reservation.
Variable learn : SessionMonitor.SessionResult -> result unit.

Lemma set_recommendation_manager_same (o : t) :
  set_recommendation_manager (recommendation_manager o) o = o.
Proof. now destruct o. Qed.

Lemma set_session_monitor_same (o : t) :
  set_session_monitor (session_monitor o) o = o.
Proof. now destruct o. Qed.

Lemma not_listed (sid : option string)
  (stations : list RecommendationManager.StationOption) :
  (forall st, In st stations ->
     Some (RecommendationManager.station_id st) <> sid) ->
  RecommendationManager.listed sid stations = false.
Proof.
  intro H. destruct sid as [s|]; [|reflexivity]. simpl.
  destruct (existsb _ stations) eqn:E; [|reflexivity].
  apply existsb_exists in E. destruct E as (st & Hin & Heq).
  apply String.eqb_eq in Heq. exfalso. apply (H st Hin). now rewrite Heq.
Qed.

(** C2.  A cycle entered in RESERVATION_CONFIRMED does not reach
    SESSION_ACTIVE: the call of [start_session_monitoring] passes the
    reservation without the station location and raises [TypeError] before
    the monitor is touched; the cycle leaves the orchestrator as it found
    it, and the loop of [start] then puts it in ERROR. *)
Theorem reservation_confirmed_cycle_raises (cfg : UAConfig) (now : datetime)
  (o : t) :
  state o = RESERVATION_CONFIRMED ->
  (exists msg,
     _run_cycle fromisoformat isoformat haversine distance
       send_charging_request learn cfg now o = (Raise (TypeError msg), o)) /\
  state (loop_iteration fromisoformat isoformat haversine distance
           send_charging_request learn cfg now o) = ERROR /\
  session_monitor (loop_iteration fromisoformat isoformat haversine distance
                     send_charging_request learn cfg now o)
  = session_monitor o.
Proof.
  intro Hst.
  assert (Hrun : exists msg,
    _run_cycle fromisoformat isoformat haversine distance
      send_charging_request learn cfg now o = (Raise (TypeError msg), o)).
  { unfold _run_cycle, bind, get. rewrite Hst.
    unfold _start_session_monitoring, bind, get, on_session_monitor,
      call_start_session_monitoring, raise.
    rewrite set_session_monitor_same. eexists. reflexivity. }
  split; [exact Hrun|]. destruct Hrun as [msg Hrun].
  unfold loop_iteration. rewrite Hrun. split; reflexivity.
Qed.

(** C4.  An action that reads ACCEPT once upper-cased, with a station id
    that no station of the last published ranked list carries (or with no
    station id), raises [ValueError] out of [handle_user_action] and leaves
    the whole orchestrator as it was: the state is unchanged and no call is
    made on the Coordinator client. *)
Theorem accept_unknown_station_rejected (action : string)
  (station_id : option string) (o : t) :
  RecommendationManager.upper action = "ACCEPT" ->
  (forall st,
     In st (RecommendationManager._ranked_stations (recommendation_manager o)) ->
     Some (RecommendationManager.station_id st) <> station_id) ->
  (exists msg,
     fst (handle_user_action confirm_station_selection action station_id o)
     = Raise (ValueError msg)) /\
  snd (handle_user_action confirm_station_selection action station_id o) = o /\
  state (snd (handle_user_action confirm_station_selection action station_id o))
  = state o /\
  ca_calls (snd (handle_user_action confirm_station_selection action station_id o))
  = ca_calls o.
Proof.
  intros Hacc Habsent.
  assert (H : exists msg,
    handle_user_action confirm_station_selection action station_id o
    = (Raise (ValueError msg), o)).
  { unfold handle_user_action. unfold bind at 1.
    unfold on_recommendation_manager,
      RecommendationManager.handle_user_selection, bind, get, raise.
    rewrite Hacc. cbn [String.eqb Ascii.eqb Bool.eqb].
    cbn match.
    destruct (RecommendationManager.truthy station_id); cbn [negb].
    - rewrite (not_listed _ _ Habsent). cbn [negb].
      rewrite set_recommendation_manager_same. eexists. reflexivity.
    - rewrite set_recommendation_manager_same. eexists. reflexivity. }
  destruct H as [msg H]. rewrite H. cbn [fst snd].
  split; [eexists; reflexivity|]. repeat split.
Qed.

End OrchestratorFacts.

Lemma reservation_confirmed_cycle_raises_witness :
  Orchestrator.state Orchestrator.confirmed
  = Orchestrator.RESERVATION_CONFIRMED /\
  Orchestrator.state
    (Orchestrator.loop_iteration (fun _ => Some 0) (fun _ => "")
       (fun _ _ => 0%Q) (fun _ _ => 0%Q) (fun _ _ => Ok [])
       (fun _ => Ok tt) Config.default 0 Orchestrator.confirmed)
  = Orchestrator.ERROR.
Proof.
  split; [reflexivity|].
  exact (proj1 (proj2 (reservation_confirmed_cycle_raises
                          (fun _ => Some 0) (fun _ => "")
                          (fun _ _ => 0%Q) (fun _ _ => 0%Q) (fun _ _ => Ok [])
                          (fun _ => Ok tt) Config.default 0
                          Orchestrator.confirmed eq_refl))).
Defined.

Lemma accept_unknown_station_rejected_witness :
  snd (Orchestrator.handle_user_action
         (fun _ _ => Ok SessionMonitor.sample_reservation)
         "accept" (Some "st_9") Orchestrator.awaiting)
  = Orchestrator.awaiting.
Proof.
  refine (proj1 (proj2 (accept_unknown_station_rejected
                          (fun _ _ => Ok SessionMonitor.sample_reservation)
                          "accept" (Some "st_9") Orchestrator.awaiting
                          eq_refl _))).
  intros st [<-|[]]. discriminate.
Defined.

Lemma process_sync_queue_pass_witness :
  let w :=
    {| ServerSync.local_cache :=
         LocalCache.enqueue_sync (fun body : string => body)
           "save_weights" "{}" 2
           (LocalCache.enqueue_sync (fun body : string => body)
              "save_session" "{}" 1 LocalCache.init);
       ServerSync.trace := [] |} in
  fst (ServerSync.process_sync_queue (fun text => Some text)
         (fun n _ _ => Nat.eqb n 1) Config.default w) = Ok tt.
Proof.
  refine (proj1 (process_sync_queue_pass (fun text => Some text)
                   (fun n _ _ => Nat.eqb n 1) Config.default _ _ _)).
  - repeat constructor; discriminate.
  - simpl. repeat constructor; simpl; intuition discriminate.
Defined.


(** ** Runs of the model on concrete inputs *)

Example urgency_at_the_defaults :
  map (ContextManager.compute_urgency Config.default)
    [8 # 100; 10 # 100; 11 # 100; 25 # 100; 50 # 100; 51 # 100]%Q
  = [ContextManager.EMERGENCY; ContextManager.EMERGENCY; ContextManager.HIGH;
     ContextManager.HIGH; ContextManager.MEDIUM; ContextManager.LOW].
Proof. reflexivity. Qed.

Example execute_three_failures :
  Retry.execute (fun n => Raise (RequestException "down") : result Z)
    Retry.default_policy
  = (Raise (RequestException "down"),
     [Retry.Called 0; Retry.Slept 1%Q; Retry.Called 1; Retry.Slept 2%Q;
      Retry.Called 2]).
Proof. reflexivity. Qed.

Example post_with_retry_three_failures :
  Retry._post_with_retry (fun n => Raise (RequestException "down") : result Z)
    Config.default
  = (Raise (PlainException "CA unreachable after retries"),
     [Retry.Called 0; Retry.Slept 1; Retry.Called 1; Retry.Slept 2;
      Retry.Called 2; Retry.Slept 4]).
Proof. reflexivity. Qed.

Example delays_at_the_defaults :
  map (SessionMonitor.classify Config.default) [1; 14; 15; 29; 30; 31]
  = ["MINOR"; "MINOR"; "MAJOR"; "MAJOR"; "NO_SHOW"; "NO_SHOW"].
Proof. reflexivity. Qed.

Example pass_keeps_the_failed_row :
  let w :=
    {| ServerSync.local_cache :=
         LocalCache.enqueue_sync (fun body : string => body)
           "save_weights" "{}" 2
           (LocalCache.enqueue_sync (fun body : string => body)
              "save_session" "{}" 1 LocalCache.init);
       ServerSync.trace := [] |} in
  let w' := snd (ServerSync.process_sync_queue (fun text => Some text)
                   (fun n _ _ => Nat.eqb n 1) Config.default w) in
  map LocalCache.id (LocalCache.rows (LocalCache.db (ServerSync.local_cache w')))
  = [1] /\
  ServerSync.trace w'
  = [ServerSync.Posted "http://localhost:9000/api/save_session" "{}" false;
     ServerSync.Slept 1;
     ServerSync.Posted "http://localhost:9000/api/save_weights" "{}" true;
     ServerSync.Removed 2].
Proof. split; reflexivity. Qed.

Example accept_listed_station_confirms :
  let o := snd (Orchestrator.handle_user_action
                  (fun _ _ => Ok SessionMonitor.sample_reservation)
                  "ACCEPT" (Some "st_1") Orchestrator.awaiting) in
  Orchestrator.state o = Orchestrator.RESERVATION_CONFIRMED /\
  Orchestrator.ca_calls o = [Orchestrator.ConfirmStationSelection "st_1"].
Proof. split; reflexivity. Qed.

Example no_show_from_completed_raises :
  fst (ReservationModels.mark_no_show 5
         (ReservationModels.sample ReservationModels.COMPLETED))
  = Raise (ValueError "Only CONFIRMED reservation can be NO_SHOW").
Proof. reflexivity. Qed.

(** ** The sync queue over its histories *)

Section OutboxFacts.
Import Config ServerSync.
Context {Payload : Type}.
Variable json_dumps : Payload -> string.
Variable json_loads : string -> option Payload.
Variable net : nat -> string -> Payload -> bool.

Lemma ascending_snoc (ids : list Z) :
  forall lo top,
    Outbox.ascending lo ids -> Forall (fun i => i <= top) ids -> lo <= top ->
    Outbox.ascending lo (ids ++ [top + 1]).
Proof.
  induction ids as [|i ids IH]; intros lo top Hasc Hle Hlo; cbn.
  - split; [lia|exact I].
  - destruct Hasc as [Hi Hrest]. inversion Hle; subst.
    split; [exact Hi|]. apply IH; assumption.
Qed.

Lemma ascending_weaken (ids : list Z) :
  forall lo lo', lo' <= lo -> Outbox.ascending lo ids -> Outbox.ascending lo' ids.
Proof.
  destruct ids as [|i ids]; intros lo lo' Hle H; [exact I|].
  destruct H as [Hi Hrest]. split; [lia|exact Hrest].
Qed.

Lemma ascending_filter (keep : Z -> bool) (ids : list Z) :
  forall lo, Outbox.ascending lo ids -> Outbox.ascending lo (filter keep ids).
Proof.
  induction ids as [|i ids IH]; intros lo H; [exact I|].
  destruct H as [Hi Hrest]. cbn. destruct (keep i).
  - split; [exact Hi|]. now apply IH.
  - apply IH. eapply ascending_weaken; [|exact Hrest]. lia.
Qed.

Lemma map_id_filter (item_id : Z) (rows : list LocalCache.sync_row) :
  map LocalCache.id
    (filter (fun r => negb (LocalCache.id r =? item_id)) rows)
  = filter (fun i => negb (i =? item_id)) (map LocalCache.id rows).
Proof.
  induction rows as [|r rows IH]; [reflexivity|]. cbn.
  destruct (negb (LocalCache.id r =? item_id)); cbn; now rewrite IH.
Qed.

Lemma table_ok_step (c : LocalCache.t) (o : Outbox.op Payload) :
  Outbox.table_ok c -> Outbox.table_ok (Outbox.step json_dumps c o).
Proof.
  intros (Hseq & Hasc & Hle). destruct o as [endpoint payload now|item_id|];
    unfold Outbox.table_ok; cbn.
  - rewrite map_app. cbn. split; [lia|]. split.
    + apply ascending_snoc; assumption.
    + apply Forall_app. split.
      * eapply Forall_impl; [|exact Hle]. cbn. intros i Hi. lia.
      * repeat constructor. lia.
  - rewrite map_id_filter. split; [exact Hseq|]. split.
    + now apply ascending_filter.
    + rewrite Forall_forall in *. intros i Hin.
      apply filter_In in Hin. now apply Hle.
  - repeat split; assumption.
Qed.

Lemma table_ok_run (ops : list (Outbox.op Payload)) :
  forall c, Outbox.table_ok c -> Outbox.table_ok (Outbox.run json_dumps c ops).
Proof.
  induction ops as [|o ops IH]; intros c H; [exact H|].
  cbn. apply IH. now apply table_ok_step.
Qed.

Lemma table_ok_init : Outbox.table_ok LocalCache.init.
Proof. repeat split; cbn; try lia; constructor. Qed.


Lemma filter_all_kept {X} (keep : X -> bool) (l : list X) :
  Forall (fun x => keep x = true) l -> filter keep l = l.
Proof.
  induction 1 as [|x l Hx Hl IH]; [reflexivity|]. cbn. now rewrite Hx, IH.
Qed.

(** Enqueue followed by removal of the id just handed out restores the rows
    of the table, on every cache reached from a fresh one; only the counter
    has moved on. *)
Theorem enqueue_then_remove (ops : list (Outbox.op Payload))
  (endpoint : string) (payload : Payload) (now : datetime) :
  let c := Outbox.run json_dumps LocalCache.init ops in
  let new_id := LocalCache.sequence (LocalCache.db c) + 1 in
  let c' := LocalCache.remove_sync_item new_id
              (LocalCache.enqueue_sync json_dumps endpoint payload now c) in
  In (new_id, json_dumps payload, endpoint)
     (LocalCache.get_pending_sync_items
        (LocalCache.enqueue_sync json_dumps endpoint payload now c)) /\
  LocalCache.rows (LocalCache.db c') = LocalCache.rows (LocalCache.db c) /\
  LocalCache.sequence (LocalCache.db c') = new_id.
Proof.
  cbv zeta.
  destruct (table_ok_run ops LocalCache.init table_ok_init) as (_ & _ & Hle).
  set (c := Outbox.run json_dumps LocalCache.init ops) in *.
  split; [|split; [|reflexivity]].
  - unfold LocalCache.get_pending_sync_items. cbn. rewrite map_app.
    apply in_or_app. right. left. reflexivity.
  - cbn. rewrite filter_app. cbn. rewrite Z.eqb_refl. cbn.
    rewrite app_nil_r. apply filter_all_kept.
    rewrite Forall_map in Hle. eapply Forall_impl; [|exact Hle].
    cbn. intros r Hr. apply negb_true_iff. apply Z.eqb_neq. lia.
Qed.

(** [remove_sync_item] deletes the rows with the given id and nothing else:
    the other rows stay, in order; an id that is not in the table changes
    nothing; removing twice is removing once. *)
Theorem remove_sync_item_exact (item_id : Z) (c : LocalCache.t) :
  let c' := LocalCache.remove_sync_item item_id c in
  (forall r, In r (LocalCache.rows (LocalCache.db c')) <->
             In r (LocalCache.rows (LocalCache.db c)) /\
             LocalCache.id r <> item_id) /\
  (~ In item_id (map LocalCache.id (LocalCache.rows (LocalCache.db c))) ->
   c' = c) /\
  LocalCache.remove_sync_item item_id c' = c'.
Proof.
  cbv zeta. split; [|split].
  - intro r. cbn. rewrite filter_In, negb_true_iff, Z.eqb_neq. reflexivity.
  - intro Habsent. destruct c as [a1 a2 a3 a4 a5 a6 a7 [rows seq]].
    unfold LocalCache.remove_sync_item, LocalCache.set_db,
      LocalCache.delete_row. cbn in *. f_equal. f_equal.
    apply filter_all_kept. rewrite Forall_forall. intros r Hr.
    apply negb_true_iff, Z.eqb_neq. intro Heq. apply Habsent.
    rewrite <- Heq. now apply in_map.
  - unfold LocalCache.remove_sync_item, LocalCache.set_db,
      LocalCache.delete_row. cbn. f_equal. f_equal.
    rewrite filter_filter. apply filter_ext. intro r.
    now destruct (negb (LocalCache.id r =? item_id)).
Qed.

(** A pass over rows [rs1] that decode, followed by a row that does not:
    the rows before it are processed, and the pass ends there with the
    decoder's exception. *)
Lemma process_items_stops (cfg : UAConfig)
  (rs1 : list LocalCache.sync_row) (bad : LocalCache.sync_row)
  (rs2 : list LocalCache.sync_row) :
  forall w : t Payload,
    Forall (loadable json_loads) rs1 ->
    json_loads (LocalCache.payload bad) = None ->
    process_items json_loads net cfg
      (map (fun r => (LocalCache.id r, LocalCache.payload r,
                      LocalCache.endpoint r)) (rs1 ++ bad :: rs2)) w
    = (Raise (ValueError "JSONDecodeError"),
       {| local_cache :=
            fold_left (fun c i => LocalCache.remove_sync_item i c)
              (removed (pass_events json_loads net cfg (requests (trace w)) rs1))
              (local_cache w);
          trace :=
            trace w ++ pass_events json_loads net cfg (requests (trace w)) rs1 |}).
Proof.
  induction rs1 as [|r rs1 IH]; intros w Hload Hbad.
  - cbn. rewrite Hbad. unfold raise. rewrite app_nil_r. now destruct w.
  - inversion Hload as [|r' rs' Hr Hrs]; subst.
    unfold loadable in Hr.
    cbn [app map process_items pass_events].
    destruct (json_loads (LocalCache.payload r)) as [body|]; [|congruence].
    unfold bind at 1. unfold post, bind, get, emit, modify, ret.
    cbn [fst snd trace local_cache].
    destruct (net (requests (trace w)) (url_of cfg (LocalCache.endpoint r)) body)
      eqn:Hok; unfold on_cache, modify; cbn [fst snd trace local_cache];
      rewrite IH by assumption; cbn [trace local_cache];
      rewrite requests_quiet by exact I; rewrite requests_posted;
      rewrite <- !app_assoc; reflexivity.
Qed.

Lemma requests_count (tr : list (event Payload)) :
  requests tr = List.length (posted tr).
Proof.
  unfold requests. induction tr as [|e tr IH]; [reflexivity|].
  destruct e; cbn; now rewrite <- IH.
Qed.

Lemma posted_pass_length (cfg : UAConfig) (rs : list LocalCache.sync_row) :
  forall n, Forall (loadable json_loads) rs ->
    List.length (posted (pass_events json_loads net cfg n rs)) = List.length rs.
Proof.
  induction rs as [|r rs IH]; intros n Hload; [reflexivity|].
  inversion Hload as [|r' rs' Hr Hrs]; subst. unfold loadable in Hr.
  cbn [pass_events].
  destruct (json_loads (LocalCache.payload r)) as [body|]; [|congruence].
  cbv zeta. destruct (net n _ body); cbn; now rewrite IH.
Qed.

(** A row whose payload text does not decode ends the pass: the call raises
    [ValueError], exactly the rows before it have been requested, and no row
    after it is attempted. *)
Theorem pass_stops_at_undecodable_row (cfg : UAConfig) (w : t Payload)
  (rs1 : list LocalCache.sync_row) (bad : LocalCache.sync_row)
  (rs2 : list LocalCache.sync_row) :
  LocalCache.rows (LocalCache.db (local_cache w)) = rs1 ++ bad :: rs2 ->
  Forall (loadable json_loads) rs1 ->
  json_loads (LocalCache.payload bad) = None ->
  let w' := snd (process_sync_queue json_loads net cfg w) in
  fst (process_sync_queue json_loads net cfg w)
  = Raise (ValueError "JSONDecodeError") /\
  List.length (posted (trace w'))
  = (List.length (posted (trace w)) + List.length rs1)%nat /\
  map (fun p => (fst (fst p), Some (snd (fst p))))
    (skipn (List.length (posted (trace w))) (posted (trace w')))
  = map (fun r => (url_of cfg (LocalCache.endpoint r),
                   json_loads (LocalCache.payload r))) rs1.
Proof.
  intros Hrows Hload Hbad. cbv zeta.
  unfold process_sync_queue, bind, get. cbn [fst snd].
  unfold LocalCache.get_pending_sync_items. rewrite Hrows.
  rewrite (process_items_stops cfg rs1 bad rs2 w Hload Hbad).
  cbn [fst snd trace]. split; [reflexivity|].
  rewrite posted_app, length_app, posted_pass_length by assumption.
  split; [reflexivity|].
  rewrite skipn_app, Nat.sub_diag, skipn_all. cbn [app skipn].
  exact (proj1 (posted_pass_events json_loads net cfg rs1 _ Hload)).
Qed.

Lemma removed_when_delivered (cfg : UAConfig) (rs : list LocalCache.sync_row) :
  forall n, Forall (loadable json_loads) rs ->
    (forall k u b, net k u b = true) ->
    removed (pass_events json_loads net cfg n rs) = map LocalCache.id rs.
Proof.
  induction rs as [|r rs IH]; intros n Hload Hup; [reflexivity|].
  inversion Hload as [|r' rs' Hr Hrs]; subst. unfold loadable in Hr.
  cbn [pass_events].
  destruct (json_loads (LocalCache.payload r)) as [body|]; [|congruence].
  cbv zeta. rewrite Hup. cbn. now rewrite IH.
Qed.

Lemma removed_when_refused (cfg : UAConfig) (rs : list LocalCache.sync_row) :
  forall n, (forall k u b, net k u b = false) ->
    removed (pass_events json_loads net cfg n rs) = [].
Proof.
  induction rs as [|r rs IH]; intros n Hdown; [reflexivity|].
  cbn [pass_events].
  destruct (json_loads (LocalCache.payload r)) as [body|]; [|reflexivity].
  cbv zeta. rewrite Hdown. cbn. now apply IH.
Qed.

Lemma filter_none_kept {X} (keep : X -> bool) (l : list X) :
  Forall (fun x => keep x = false) l -> filter keep l = [].
Proof.
  induction 1 as [|x l Hx Hl IH]; [reflexivity|]. cbn. now rewrite Hx.
Qed.

Lemma sequence_after_removals (ids : list Z) :
  forall c : LocalCache.t,
    LocalCache.sequence (LocalCache.db
      (fold_left (fun c i => LocalCache.remove_sync_item i c) ids c))
    = LocalCache.sequence (LocalCache.db c).
Proof.
  induction ids as [|i ids IH]; intro c; [reflexivity|].
  cbn [fold_left]. now rewrite IH.
Qed.

(** The whole pass, on a table whose rows decode. *)
Lemma process_sync_queue_run (cfg : UAConfig) (w : t Payload) :
  let rows0 := LocalCache.rows (LocalCache.db (local_cache w)) in
  Forall (loadable json_loads) rows0 ->
  process_sync_queue json_loads net cfg w
  = (Ok tt,
     {| local_cache :=
          fold_left (fun c i => LocalCache.remove_sync_item i c)
            (removed (pass_events json_loads net cfg (requests (trace w)) rows0))
            (local_cache w);
        trace :=
          trace w ++ pass_events json_loads net cfg (requests (trace w)) rows0 |}).
Proof.
  intros rows0 Hload. unfold process_sync_queue, bind, get.
  unfold LocalCache.get_pending_sync_items. fold rows0.
  exact (process_items_run json_loads net cfg rows0 w Hload).
Qed.

(** With the backend accepting every request, one pass over rows that
    decode empties the table without touching the id counter, and the pass
    that follows makes no request and changes nothing. *)
Theorem pass_with_backend_up_drains (cfg : UAConfig) (w : t Payload) :
  Forall (loadable json_loads)
    (LocalCache.rows (LocalCache.db (local_cache w))) ->
  (forall k u b, net k u b = true) ->
  let w' := snd (process_sync_queue json_loads net cfg w) in
  LocalCache.rows (LocalCache.db (local_cache w')) = [] /\
  LocalCache.sequence (LocalCache.db (local_cache w'))
  = LocalCache.sequence (LocalCache.db (local_cache w)) /\
  process_sync_queue json_loads net cfg w' = (Ok tt, w').
Proof.
  intros Hload Hup. cbv zeta.
  rewrite (process_sync_queue_run cfg w Hload). cbn [snd].
  rewrite removed_when_delivered by assumption.
  set (rows0 := LocalCache.rows (LocalCache.db (local_cache w))) in *.
  set (c' := fold_left (fun c i => LocalCache.remove_sync_item i c)
               (map LocalCache.id rows0) (local_cache w)).
  assert (Hrows : LocalCache.rows (LocalCache.db c') = []).
  { unfold c'. rewrite rows_after_removals. fold rows0.
    apply filter_none_kept. rewrite Forall_forall. intros r Hin.
    apply negb_false_iff. apply existsb_exists.
    exists (LocalCache.id r). split; [now apply in_map | apply Z.eqb_refl]. }
  cbn [local_cache]. split; [exact Hrows|]. split.
  - unfold c'. apply sequence_after_removals.
  - unfold process_sync_queue, bind, get. cbn [fst snd local_cache].
    unfold LocalCache.get_pending_sync_items. rewrite Hrows. reflexivity.
Qed.

(** With the backend refusing every request, a pass makes one request per
    row that decodes and leaves the cache exactly as it found it. *)
Theorem pass_with_backend_down_keeps_all (cfg : UAConfig) (w : t Payload) :
  Forall (loadable json_loads)
    (LocalCache.rows (LocalCache.db (local_cache w))) ->
  (forall k u b, net k u b = false) ->
  let w' := snd (process_sync_queue json_loads net cfg w) in
  local_cache w' = local_cache w /\
  requests (trace w')
  = (requests (trace w)
     + List.length (LocalCache.rows (LocalCache.db (local_cache w))))%nat.
Proof.
  intros Hload Hdown. cbv zeta.
  rewrite (process_sync_queue_run cfg w Hload). cbn [snd local_cache trace].
  rewrite removed_when_refused by assumption. cbn [fold_left].
  split; [reflexivity|]. rewrite requests_app. f_equal.
  rewrite requests_count. now apply posted_pass_length.
Qed.

(** A write whose first request fails is queued, and a pass that reaches the
    backend then delivers the same body to the same endpoint and clears the
    row: on an empty outbox, [push_session] followed by
    [process_sync_queue] makes exactly the two requests and leaves the
    outbox empty. *)
Theorem failed_push_is_redelivered (cfg : UAConfig) (now : datetime)
  (body : Payload) (w : t Payload) :
  let url := url_of cfg "save_session" in
  let n := requests (trace w) in
  LocalCache.rows (LocalCache.db (local_cache w)) = [] ->
  json_loads (json_dumps body) = Some body ->
  net n url body = false ->
  net (S n) url body = true ->
  let w1 := snd (push_session json_dumps net cfg now body w) in
  let w2 := snd (process_sync_queue json_loads net cfg w1) in
  fst (process_sync_queue json_loads net cfg w1) = Ok tt /\
  posted (trace w2)
  = posted (trace w) ++ [(url, body, false); (url, body, true)] /\
  LocalCache.rows (LocalCache.db (local_cache w2)) = [].
Proof.
  intros url n Hempty Hround Hfail Hok. cbv zeta.
  unfold push_session, post, enqueue, on_cache, emit, bind, get, modify, ret.
  cbn [fst snd trace local_cache]. fold url. fold n. rewrite Hfail.
  cbn [fst snd trace local_cache].
  unfold process_sync_queue, bind, get. cbn [fst snd trace local_cache].
  unfold LocalCache.get_pending_sync_items. cbn. rewrite Hempty. cbn.
  rewrite Hround. unfold post, emit, on_cache, bind, get, modify, ret.
  cbn [fst snd trace local_cache].
  rewrite requests_quiet by exact I. rewrite requests_posted.
  fold url. fold n. rewrite Hok. cbn [fst snd trace local_cache].
  split; [reflexivity|]. split.
  - rewrite !posted_app. cbn. rewrite <- !app_assoc. reflexivity.
  - cbn. rewrite Hempty. cbn. now rewrite Z.eqb_refl.
Qed.

End OutboxFacts.

(** ** The session monitor beyond the delay ladder *)

Section SessionMonitorHistoryFacts.
Import Config SessionMonitor MonitorHistory.

Variable fromisoformat : string -> option datetime.
Variable isoformat : datetime -> string.
Variable eta : LatLon -> LatLon -> Z.
Variable haversine : LatLon -> LatLon -> Q.

(** What [update_eta] leaves of the monitor: everything but the last
    position. *)
Lemma update_eta_frame (cfg : UAConfig) (now : datetime) (gps : LatLon)
  (self : t) :
  let self' := snd (update_eta fromisoformat isoformat eta cfg now gps self) in
  _reservation self' = _reservation self /\
  _station_location self' = _station_location self /\
  _telemetry self' = _telemetry self /\
  _session_start_time self' = _session_start_time self /\
  _last_telemetry_time self' = _last_telemetry_time self.
Proof.
  cbv zeta. unfold update_eta. run_m.
  destruct self as [vid [r|] [loc|] last tel started received]; cbn;
    try (repeat split; fail).
  destruct (fromisoformat (start_time r)) as [start|];
    [destruct (minutes_between _ _ <=? 0)|]; repeat split.
Qed.

(** The session start is latched: the first IN_PROGRESS telemetry sets it to
    the instant of reception, and from then on no call changes it until the
    monitor is rebound. *)
Theorem session_start_latched (cfg : UAConfig) (self : t) (now : datetime)
  (data : TelemetryData) (calls : list call) :
  _session_start_time self = None ->
  session_status data = "IN_PROGRESS" ->
  forallb (fun c => negb (rebinding c)) calls = true ->
  _session_start_time
    (run fromisoformat isoformat eta cfg
       (snd (receive_telemetry now data self)) calls) = Some now.
Proof.
  intros Hnone Hstatus Hcalls.
  assert (Hstart : _session_start_time (snd (receive_telemetry now data self))
                   = Some now).
  { cbn. now rewrite Hnone, Hstatus. }
  revert Hstart. generalize (snd (receive_telemetry now data self)).
  induction calls as [|c calls IH]; intros m Hm; [exact Hm|].
  cbn in Hcalls. apply andb_true_iff in Hcalls. destruct Hcalls as [Hc Hrest].
  cbn [run fold_left]. apply (IH Hrest).
  destruct c; cbn in Hc; try discriminate; cbn [step]; try exact Hm.
  - destruct (update_eta_frame cfg now0 gps m) as (_ & _ & _ & H & _).
    cbv zeta in H. now rewrite H.
  - cbn. now rewrite Hm.
Qed.

(** After telemetry received at [t0], and until more telemetry arrives or
    the monitor is rebound, the timeout is reported exactly when more than
    [telemetry_timeout_sec] seconds have passed since [t0]. *)
Theorem telemetry_timeout_after_reception (cfg : UAConfig) (self : t)
  (t0 now : datetime) (data : TelemetryData) (calls : list call) :
  forallb (fun c => negb (rebinding c) && negb (receiving c)) calls = true ->
  telemetry_timeout_detected cfg now
    (run fromisoformat isoformat eta cfg
       (snd (receive_telemetry t0 data self)) calls) = true
  <-> telemetry_timeout_sec cfg * usec_per_second < now - t0.
Proof.
  intro Hcalls.
  assert (Hlast : _last_telemetry_time
            (run fromisoformat isoformat eta cfg
               (snd (receive_telemetry t0 data self)) calls) = Some t0).
  { assert (H0 : _last_telemetry_time (snd (receive_telemetry t0 data self))
                 = Some t0) by reflexivity.
    revert H0. generalize (snd (receive_telemetry t0 data self)).
    induction calls as [|c calls IH]; intros m Hm; [exact Hm|].
    cbn in Hcalls. apply andb_true_iff in Hcalls.
    destruct Hcalls as [Hc Hrest]. apply andb_true_iff in Hc.
    destruct Hc as [Hc1 Hc2].
    cbn [run fold_left]. apply (IH Hrest).
    destruct c; cbn in Hc1, Hc2; try discriminate; cbn [step]; try exact Hm.
    destruct (update_eta_frame cfg now0 gps m) as (_ & _ & _ & _ & H).
    cbv zeta in H. now rewrite H. }
  unfold telemetry_timeout_detected. rewrite Hlast.
  destruct (now - t0 >? telemetry_timeout_sec cfg * usec_per_second) eqn:E.
  - split; [intros _|reflexivity]. apply Z.gtb_lt in E. exact E.
  - split; [discriminate|]. intro H. apply Z.gtb_lt in H. congruence.
Qed.

(** [update_eta] on a monitor that lacks the reservation or the station
    location answers nothing and does not even record the position; on a
    bound monitor it records the position whatever the answer, and touches
    nothing else. *)
Theorem update_eta_records_position (cfg : UAConfig) (now : datetime)
  (gps : LatLon) (self : t) :
  let out := update_eta fromisoformat isoformat eta cfg now gps self in
  ((_reservation self = None \/ _station_location self = None) ->
   out = (Ok None, self)) /\
  (_reservation self <> None -> _station_location self <> None ->
   _last_gps (snd out) = Some gps /\
   snd out = set_last_gps gps self).
Proof.
  cbv zeta. unfold update_eta. run_m. split.
  - intros [H|H].
    + now rewrite H.
    + rewrite H. now destruct (_reservation self).
  - intros Hr Hloc.
    destruct (_reservation self) as [r|]; [|congruence].
    destruct (_station_location self) as [loc|]; [|congruence].
    destruct (fromisoformat (start_time r)) as [start|];
      [destruct (minutes_between _ _ <=? 0)|]; split; reflexivity.
Qed.

(** Rebinding discards the session of the previous reservation: whatever
    the monitor held, after [start_session_monitoring] the session is not
    reported complete, no result can be built and no start is latched; the
    last position is the one thing that survives. *)
Theorem rebinding_discards_session (self : t) (r : Reservation)
  (loc : option LatLon) (now : datetime) :
  let out := start_session_monitoring (Some r) loc self in
  let self' := snd out in
  fst out = Ok tt /\
  _reservation self' = Some r /\
  check_session_status self' = false /\
  detect_session_complete fromisoformat isoformat haversine now self'
  = Ok None /\
  _session_start_time self' = None /\
  _last_gps self' = _last_gps self.
Proof. cbv zeta. repeat split. Qed.

(** A session result, when one is built, carries the ids of the bound
    reservation and the energy of the latest telemetry, and a waiting time
    that is never negative: zero when no start was latched, and the whole
    minutes between the reserved start and the latched start otherwise,
    floored at zero. *)
Theorem session_result_fields (self : t) (now : datetime)
  (res : SessionResult) :
  detect_session_complete fromisoformat isoformat haversine now self
  = Ok (Some res) ->
  exists r tel,
    _reservation self = Some r /\ _telemetry self = Some tel /\
    result_reservation_id res = reservation_id r /\
    result_station_id res = station_id r /\
    session_id res = ("session_" ++ reservation_id r)%string /\
    energy_delivered_kwh res = energy_kwh tel /\
    0 <= actual_wait_min res /\
    (_session_start_time self = None -> actual_wait_min res = 0) /\
    (forall started start,
       _session_start_time self = Some started ->
       fromisoformat (start_time r) = Some start ->
       actual_wait_min res = Z.max (minutes_between started start) 0).
Proof.
  unfold detect_session_complete. intro H.
  destruct (_reservation self) as [r|]; [|discriminate].
  destruct (_telemetry self) as [tel|]; [|discriminate].
  exists r, tel.
  destruct (_session_start_time self) as [started|].
  - destruct (fromisoformat (start_time r)) as [start|]; [|discriminate].
    injection H as <-. cbn. repeat split; try lia; try discriminate.
    intros started' start' Hs Hp. injection Hs as <-. injection Hp as <-.
    reflexivity.
  - injection H as <-. cbn. repeat split; try lia; discriminate.
Qed.

Lemma classify_cases (cfg : UAConfig) (d : Z) :
  classify cfg d = "NO_SHOW" \/ classify cfg d = "MAJOR" \/
  classify cfg d = "MINOR".
Proof.
  unfold classify.
  destruct (d >=? no_show_threshold_min cfg); [now left|].
  destruct (d >=? major_delay_threshold_min cfg); [right; now left|].
  right. now right.
Qed.

(** Every delay result carries a positive whole-minute delay and one of the
    three severities, and a longer delay never gets a milder severity,
    whatever the two thresholds are. *)
Theorem delay_severity_monotone (cfg : UAConfig) :
  (forall now gps self d,
     fst (update_eta fromisoformat isoformat eta cfg now gps self)
     = Ok (Some d) ->
     0 < delay_minutes d /\ severity d = classify cfg (delay_minutes d) /\
     In (severity d) ["MINOR"; "MAJOR"; "NO_SHOW"]) /\
  (forall d1 d2, d1 <= d2 ->
     (severity_rank (classify cfg d1) <= severity_rank (classify cfg d2))%nat).
Proof.
  split.
  - intros now gps self d. unfold update_eta. run_m.
    destruct (_reservation self) as [r|]; [|discriminate].
    destruct (_station_location self) as [loc|]; [|discriminate].
    destruct (fromisoformat (start_time r)) as [start|]; [|discriminate].
    destruct (minutes_between _ _ <=? 0) eqn:E; [discriminate|].
    cbn. intro H. injection H as <-. cbn.
    apply Z.leb_gt in E. split; [exact E|]. split; [reflexivity|].
    destruct (classify_cases cfg
                (minutes_between (now + eta gps loc * usec_per_minute) start))
      as [H|[H|H]]; rewrite H; cbn; auto.
  - intros d1 d2 Hle. unfold classify.
    destruct (d2 >=? no_show_threshold_min cfg) eqn:N2.
    + destruct (d1 >=? no_show_threshold_min cfg);
        [|destruct (d1 >=? major_delay_threshold_min cfg)]; cbn; lia.
    + assert (N1 : (d1 >=? no_show_threshold_min cfg) = false).
      { rewrite Z.geb_leb in *. apply Z.leb_gt. apply Z.leb_gt in N2. lia. }
      rewrite N1.
      destruct (d2 >=? major_delay_threshold_min cfg) eqn:M2.
      * destruct (d1 >=? major_delay_threshold_min cfg); cbn; lia.
      * assert (M1 : (d1 >=? major_delay_threshold_min cfg) = false).
        { rewrite Z.geb_leb in *. apply Z.leb_gt. apply Z.leb_gt in M2. lia. }
        rewrite M1. cbn. lia.
Qed.

End SessionMonitorHistoryFacts.

(** ** User decisions, the cycle and the event handlers *)

Section DecisionFacts.
Import Config Orchestrator.

Variable fromisoformat : string -> option datetime.
Variable isoformat : datetime -> string.
Variable haversine : SessionMonitor.LatLon -> SessionMonitor.LatLon -> Q.
Variable distance : ContextManager.LatLon -> ContextManager.LatLon -> Q.
Variable send_charging_request :
  nat -> ContextManager.VehicleContext ->
  result (list RecommendationManager.StationOption).
Variable confirm_station_selection :
  nat -> string -> result SessionMonitor.Reservation.
Variable learn : SessionMonitor.SessionResult -> result unit.
Variable request_slot_cancellation : nat -> string -> string -> result unit.
Variable sa_net : nat -> string * string * string -> bool.

Lemma selection_keeps_ranked_list (action : string) (sid : option string)
  (rm : RecommendationManager.t) :
  RecommendationManager._ranked_stations
    (snd (RecommendationManager.handle_user_selection action sid rm))
  = RecommendationManager._ranked_stations rm.
Proof.
  unfold RecommendationManager.handle_user_selection. run_m.
  destruct (String.eqb (RecommendationManager.upper action) "ACCEPT").
  - destruct (negb (RecommendationManager.truthy sid)); [reflexivity|].
    destruct (negb (RecommendationManager.listed sid _)); reflexivity.
  - destruct (String.eqb (RecommendationManager.upper action) "REJECT");
      [reflexivity|].
    destruct (String.eqb (RecommendationManager.upper action) "DEFER");
      reflexivity.
Qed.

(** The ranked list is displayed as the Coordinator sent it: after
    [receive_ranked_stations], no series of user selections, valid or not,
    changes what [display_stations] returns, in content or in order. *)
Theorem ranked_list_never_reordered
  (stations : list RecommendationManager.StationOption)
  (rm : RecommendationManager.t) (calls : list (string * option string)) :
  RecommendationManager.display_stations
    (Selections.run
       (snd (RecommendationManager.receive_ranked_stations stations rm)) calls)
  = stations.
Proof.
  unfold RecommendationManager.display_stations.
  assert (H : RecommendationManager._ranked_stations
                (snd (RecommendationManager.receive_ranked_stations stations rm))
              = stations) by reflexivity.
  revert H.
  generalize (snd (RecommendationManager.receive_ranked_stations stations rm)).
  induction calls as [|c calls IH]; intros m Hm; [exact Hm|].
  cbn [Selections.run fold_left]. apply IH.
  now rewrite selection_keeps_ranked_list.
Qed.

Lemma listed_iff (sid : option string)
  (stations : list RecommendationManager.StationOption) :
  RecommendationManager.listed sid stations = true <->
  exists st, In st stations /\
             Some (RecommendationManager.station_id st) = sid.
Proof.
  destruct sid as [s|]; cbn.
  - rewrite existsb_exists. split; intros (st & Hin & H); exists st;
      (split; [exact Hin|]).
    + apply String.eqb_eq in H. now rewrite H.
    + injection H as ->. apply String.eqb_refl.
  - split; [discriminate|]. intros (st & _ & H). discriminate.
Qed.


Lemma truthy_some (s : string) :
  s <> "" -> RecommendationManager.truthy (Some s) = true.
Proof. destruct s; [congruence|reflexivity]. Qed.


Lemma upper_accept_not_other (action : string) :
  RecommendationManager.upper action = "ACCEPT" ->
  String.eqb action "REJECT" = false /\ String.eqb action "DEFER" = false.
Proof.
  intro H. split; apply String.eqb_neq; intro Heq; subst action;
    discriminate H.
Qed.

(** The dispatch of [handle_user_action] compares the action as typed,
    while the validation upper-cases it: an accept that is not spelled
    ACCEPT in capitals passes validation for a listed station and then does
    nothing, with no call on the Coordinator and no change of state. *)
Theorem accept_in_other_case_is_dropped (action sid : string) (o : t) :
  RecommendationManager.upper action = "ACCEPT" ->
  action <> "ACCEPT" ->
  sid <> "" ->
  (exists st,
     In st (RecommendationManager._ranked_stations (recommendation_manager o)) /\
     RecommendationManager.station_id st = sid) ->
  handle_user_action confirm_station_selection action (Some sid) o = (Ok tt, o).
Proof.
  intros Hup Hne Hsid (st & Hin & Hid).
  assert (Hlisted : RecommendationManager.listed (Some sid)
            (RecommendationManager._ranked_stations (recommendation_manager o))
          = true).
  { apply listed_iff. exists st. split; [exact Hin|now rewrite Hid]. }
  destruct (upper_accept_not_other action Hup) as [Hrej Hdef].
  apply String.eqb_neq in Hne.
  unfold handle_user_action. unfold bind at 1.
  unfold on_recommendation_manager,
    RecommendationManager.handle_user_selection. run_m.
  rewrite Hup. cbn [String.eqb Ascii.eqb Bool.eqb]. cbn match.
  rewrite (truthy_some sid Hsid), Hlisted. cbn [negb].
  rewrite set_recommendation_manager_same, Hne, Hrej, Hdef. reflexivity.
Qed.

(** A decision that is not an accept never reaches the Coordinator and never
    touches the cache or the ranked list; REJECT changes nothing at all, and
    DEFER moves the state to DEFERRED and marks the manager deferred. *)
Theorem non_accept_decisions (action : string) (sid : option string) (o : t) :
  RecommendationManager.upper action <> "ACCEPT" ->
  let out := handle_user_action confirm_station_selection action sid o in
  ca_calls (snd out) = ca_calls o /\
  cache (snd out) = cache o /\
  RecommendationManager._ranked_stations (recommendation_manager (snd out))
  = RecommendationManager._ranked_stations (recommendation_manager o) /\
  (action = "REJECT" -> out = (Ok tt, o)) /\
  (action = "DEFER" ->
   fst out = Ok tt /\ state (snd out) = DEFERRED /\
   RecommendationManager._deferred (recommendation_manager (snd out)) = true).
Proof.
  intro Hup. cbv zeta.
  assert (Hacc : String.eqb action "ACCEPT" = false).
  { apply String.eqb_neq. intro H. subst action. now apply Hup. }
  apply String.eqb_neq in Hup.
  unfold handle_user_action. unfold bind at 1.
  unfold on_recommendation_manager,
    RecommendationManager.handle_user_selection. run_m.
  rewrite Hup, Hacc. cbn [andb].
  destruct (String.eqb (RecommendationManager.upper action) "REJECT") eqn:Hr;
    [|destruct (String.eqb (RecommendationManager.upper action) "DEFER") eqn:Hd];
    try rewrite set_recommendation_manager_same; cbn [fst snd];
    destruct (String.eqb action "REJECT") eqn:Hr';
    try (apply String.eqb_eq in Hr'; subst action; discriminate);
    destruct (String.eqb action "DEFER") eqn:Hd';
    try (apply String.eqb_eq in Hd'; subst action; discriminate);
    cbn [fst snd];
    repeat split; intros; subst; try reflexivity;
    try (cbn in *; discriminate).
Qed.

End DecisionFacts.

Section CycleFacts.
Import Config Orchestrator.

Variable fromisoformat : string -> option datetime.
Variable isoformat : datetime -> string.
Variable haversine : SessionMonitor.LatLon -> SessionMonitor.LatLon -> Q.
Variable distance : ContextManager.LatLon -> ContextManager.LatLon -> Q.
Variable send_charging_request :
  nat -> ContextManager.VehicleContext ->
  result (list RecommendationManager.StationOption).
Variable learn : SessionMonitor.SessionResult -> result unit.
Variable request_slot_cancellation : nat -> string -> string -> result unit.
Variable sa_net : nat -> string * string * string -> bool.

Local Abbreviation cycle :=
  (_run_cycle fromisoformat isoformat haversine distance
     send_charging_request learn).
Local Abbreviation turn :=
  (loop_iteration fromisoformat isoformat haversine distance
     send_charging_request learn).

(** A cycle in REQUESTING_STATIONS never raises.  Without a cached context
    it makes no call and returns to MONITORING.  With one it makes exactly
    one charging request; a failed client or an empty list returns to
    MONITORING with the ranked list of the cache and of the manager
    untouched; a non-empty list is stored in both, in the order received,
    and the state becomes AWAITING_USER_SELECTION. *)
Theorem requesting_stations_cycle (cfg : UAConfig) (now : datetime) (o : t) :
  state o = REQUESTING_STATIONS ->
  let out := cycle cfg now o in
  fst out = Ok tt /\
  match LocalCache.current_vehicle_context (cache o) with
  | None => snd out = set_state MONITORING o
  | Some ctx =>
      ca_calls (snd out) = ca_calls o ++ [SendChargingRequest ctx] /\
      match send_charging_request (List.length (ca_calls o)) ctx with
      | Ok (st :: rest) =>
          state (snd out) = AWAITING_USER_SELECTION /\
          LocalCache.ranked_stations_cache (cache (snd out)) = Some (st :: rest) /\
          RecommendationManager.display_stations
            (recommendation_manager (snd out)) = st :: rest /\
          RecommendationManager._deferred (recommendation_manager (snd out))
          = false
      | _ =>
          state (snd out) = MONITORING /\ cache (snd out) = cache o /\
          recommendation_manager (snd out) = recommendation_manager o
      end
  end.
Proof.
  intro Hst. cbv zeta. unfold _run_cycle. run_m. rewrite Hst.
  unfold _request_stations_from_ca. run_m.
  destruct (LocalCache.current_vehicle_context (cache o)) as [ctx|];
    [|split; reflexivity].
  cbn [fst snd ca_calls].
  destruct (send_charging_request (List.length (ca_calls o)) ctx)
    as [[|st rest]|e]; cbn; repeat split.
Qed.

(** In IDLE, AWAITING_USER_SELECTION, DEFERRED and ERROR the loop changes
    nothing, however many turns it takes: the cycle has no way out of these
    states, ERROR included. *)
Theorem parked_states_are_kept (cfg : UAConfig) (o : t)
  (instants : list datetime) :
  Handlers.parked (state o) = true ->
  Handlers.run_loop fromisoformat isoformat haversine distance
    send_charging_request learn cfg o instants = o.
Proof.
  intro Hp. induction instants as [|now instants IH]; [reflexivity|].
  cbn [Handlers.run_loop fold_left].
  assert (Hturn : turn cfg now o = o).
  { unfold loop_iteration, _run_cycle. run_m.
    destruct (state o); cbn in Hp; try discriminate; reflexivity. }
  rewrite Hturn. exact IH.
Qed.

(** A cycle in SESSION_COMPLETED.  When the preference manager accepts the
    result (or there is none), the session fields of the cache are cleared
    and the state returns to MONITORING, nothing else of the orchestrator
    changing.  When the preference manager raises, the exception leaves the
    cycle with nothing cleared, and the loop puts the orchestrator in
    ERROR. *)
Theorem session_completed_cycle (cfg : UAConfig) (now : datetime) (o : t) :
  state o = SESSION_COMPLETED ->
  let outcome :=
    match LocalCache.session_result (cache o) with
    | Some result => learn result
    | None => Ok tt
    end in
  match outcome with
  | Ok _ =>
      cycle cfg now o
      = (Ok tt,
         set_state MONITORING
           (set_cache (LocalCache.clear_session_data (cache o)) o)) /\
      LocalCache.session_result (cache (snd (cycle cfg now o))) = None /\
      LocalCache.active_reservation (cache (snd (cycle cfg now o))) = None
  | Raise e =>
      cycle cfg now o = (Raise e, o) /\
      turn cfg now o = set_state ERROR o
  end.
Proof.
  intro Hst. cbv zeta. unfold loop_iteration, _run_cycle. run_m. rewrite Hst.
  unfold _finalize_session, _reset_workflow. run_m.
  destruct (LocalCache.session_result (cache o)) as [result|];
    [destruct (learn result) as [u|e]|]; cbn; repeat split.
Qed.

(** A cycle in SESSION_ACTIVE leaves the orchestrator untouched until the
    latest telemetry reads COMPLETED; it then stores whatever result the
    monitor builds (none when the monitor has no reservation) and moves to
    SESSION_COMPLETED, or lets the monitor's exception through without
    changing anything. *)
Theorem session_active_cycle (cfg : UAConfig) (now : datetime) (o : t) :
  state o = SESSION_ACTIVE ->
  if SessionMonitor.check_session_status (session_monitor o) then
    match SessionMonitor.detect_session_complete fromisoformat isoformat
            haversine now (session_monitor o) with
    | Ok result =>
        fst (cycle cfg now o) = Ok tt /\
        state (snd (cycle cfg now o)) = SESSION_COMPLETED /\
        LocalCache.session_result (cache (snd (cycle cfg now o))) = result /\
        session_monitor (snd (cycle cfg now o)) = session_monitor o
    | Raise e => cycle cfg now o = (Raise e, o)
    end
  else cycle cfg now o = (Ok tt, o).
Proof.
  intro Hst. unfold _run_cycle. run_m. rewrite Hst.
  unfold _monitor_session. run_m.
  destruct (SessionMonitor.check_session_status (session_monitor o));
    [|reflexivity].
  destruct (SessionMonitor.detect_session_complete _ _ _ _ _) as [result|e];
    cbn; repeat split.
Qed.

(** [handle_fault_alert].  A fault that is not CRITICAL changes nothing and
    sends nothing.  A CRITICAL one without an active reservation raises
    before any request.  With a reservation, exactly one cancellation with
    reason FAULT is requested for it; the state is forced to MONITORING only
    when that request succeeds, and the reservation stays in the cache;
    when the request fails its exception is raised and the state is left as
    it was. *)
Theorem fault_alert_handling (alert : SessionMonitor.FaultAlert)
  (w : Handlers.t) :
  let out := Handlers.handle_fault_alert request_slot_cancellation alert w in
  let o := Handlers.orchestrator w in
  if String.eqb (SessionMonitor.fault_severity alert) "CRITICAL" then
    match LocalCache.active_reservation (cache o) with
    | None => snd out = w /\ exists msg, fst out = Raise (AttributeError msg)
    | Some r =>
        let rid := SessionMonitor.reservation_id r in
        Handlers.cancellations (snd out)
        = Handlers.cancellations w ++ [(rid, "FAULT")] /\
        cache (Handlers.orchestrator (snd out)) = cache o /\
        match request_slot_cancellation
                (List.length (Handlers.cancellations w)) rid "FAULT" with
        | Ok _ =>
            fst out = Ok tt /\
            Handlers.orchestrator (snd out) = set_state MONITORING o
        | Raise e =>
            fst out = Raise e /\ Handlers.orchestrator (snd out) = o
        end
    end
  else out = (Ok tt, w).
Proof.
  cbv zeta. unfold Handlers.handle_fault_alert, SessionMonitor.handle_fault.
  run_m.
  destruct (String.eqb (SessionMonitor.fault_severity alert) "CRITICAL");
    [|reflexivity].
  destruct (LocalCache.active_reservation (cache (Handlers.orchestrator w)))
    as [r|].
  - unfold Handlers.record_cancellation, Handlers.on_orchestrator. run_m.
    cbn [fst snd Handlers.cancellations Handlers.orchestrator].
    destruct (request_slot_cancellation _ _ _) as [u|e]; cbn; repeat split.
  - split; [reflexivity|]. eexists. reflexivity.
Qed.

(** [handle_micro_slot_decision] never reaches the Station service: it
    calls [send_micro_slot_decision] with two arguments where three are
    required, so every call raises [TypeError] and leaves everything as it
    was.  The same client method called with the vehicle id does send
    exactly one request. *)
Theorem micro_slot_decision_never_sent (slot_id decision vehicle : string)
  (w : Handlers.t) :
  (exists msg,
     Handlers.handle_micro_slot_decision sa_net slot_id decision w
     = (Raise (TypeError msg), w)) /\
  Handlers.sa_requests
    (snd (Handlers.call_send_micro_slot_decision sa_net
            [slot_id; decision; vehicle] w))
  = Handlers.sa_requests w ++ [(slot_id, decision, vehicle)].
Proof.
  split.
  - eexists. reflexivity.
  - unfold Handlers.call_send_micro_slot_decision,
      Handlers.send_micro_slot_decision, Handlers.record_sa_request. run_m.
    cbn [fst snd Handlers.sa_requests].
    destruct (sa_net _ _); reflexivity.
Qed.

End CycleFacts.

(** ** Reservations over their lifecycle *)

Section ReservationLifecycleFacts.
Import ReservationModels ReservationLifecycle.

Lemma transition_frozen (op : transition) (now : datetime) (r : Reservation) :
  status r = COMPLETED \/ status r = CANCELLED ->
  snd (apply_transition op now r) = r.
Proof.
  intros [H|H]; destruct op; cbn; unfold mark_active, mark_completed,
    mark_cancelled, mark_no_show; run_m; rewrite H; reflexivity.
Qed.

(** Completed and Cancelled are final: no series of transition calls
    changes anything of a reservation in either status. *)
Theorem finalized_reservation_is_frozen (r : Reservation)
  (calls : list (transition * datetime)) :
  status r = COMPLETED \/ status r = CANCELLED ->
  run r calls = r.
Proof.
  intro H. induction calls as [|c calls IH]; [reflexivity|].
  cbn [run fold_left]. rewrite transition_frozen by exact H. exact IH.
Qed.




End ReservationLifecycleFacts.

(** ** The ranked list wrapper *)

Section StationModelsFacts.
Import StationModels.

Lemma find_by_id_first (l : list StationOption) (sid : string) :
  match find_by_id l sid with
  | Some st =>
      exists before after,
        l = before ++ st :: after /\ station_id st = sid /\
        Forall (fun s => station_id s <> sid) before
  | None => Forall (fun s => station_id s <> sid) l
  end.
Proof.
  induction l as [|s l IH]; cbn; [constructor|].
  destruct (String.eqb (station_id s) sid) eqn:E.
  - apply String.eqb_eq in E. exists [], l. repeat split; auto.
  - apply String.eqb_neq in E. destruct (find_by_id l sid) as [st|].
    + destruct IH as (before & after & -> & Hid & Hbefore).
      exists (s :: before), after. repeat split; auto.
    + constructor; assumption.
Qed.

(** [get_by_id] returns the first station of the list, in rank order, that
    carries the id, and [None] exactly when no station carries it. *)
Theorem get_by_id_first_match (self : RankedStationList) (sid : string) :
  match get_by_id self sid with
  | Some st =>
      exists before after,
        stations self = before ++ st :: after /\ station_id st = sid /\
        Forall (fun s => station_id s <> sid) before
  | None => Forall (fun s => station_id s <> sid) (stations self)
  end.
Proof. apply find_by_id_first. Qed.

(** A wrapper that the constructor accepted is never empty: it lists the
    stations as given, [top] returns the first of them without an index
    error, and looking that station up by its id finds it again. *)
Theorem constructed_list_has_top (l : list StationOption)
  (self : RankedStationList) :
  make l = Ok self ->
  to_list self = l /\ (0 < len self)%nat /\
  exists st rest,
    l = st :: rest /\ top self = Ok st /\
    get_by_id self (station_id st) = Some st.
Proof.
  destruct l as [|st rest]; cbn; [discriminate|].
  intro H. injection H as <-. cbn. split; [reflexivity|]. split; [lia|].
  exists st, rest. unfold get_by_id. cbn. rewrite String.eqb_refl.
  repeat split.
Qed.

End StationModelsFacts.

(** ** The session history of the preference manager *)

Section PreferenceHistoryFacts.
Import PreferenceHistory.
Context {Session : Type}.

Lemma record_session_short (x : Session) (h : list Session) :
  (List.length h < 100)%nat -> record_session x h = h ++ [x].
Proof.
  intro H. unfold record_session. rewrite length_app. cbn [List.length].
  destruct (Nat.ltb_spec 100 (List.length h + 1)); [lia|reflexivity].
Qed.

Lemma record_session_full (x : Session) (h : list Session) :
  (100 <= List.length h)%nat -> record_session x h = tl h ++ [x].
Proof.
  intro H. unfold record_session. rewrite length_app. cbn [List.length].
  destruct (Nat.ltb_spec 100 (List.length h + 1)); [|lia].
  destruct h as [|a h]; [cbn in H; lia|reflexivity].
Qed.

Lemma run_keeps_last_hundred (sessions : list Session) :
  forall h, (List.length h <= 100)%nat ->
    run h sessions = lastn 100 (h ++ sessions).
Proof.
  induction sessions as [|x xs IH]; intros h Hlen.
  - cbn. rewrite app_nil_r. unfold lastn.
    replace (List.length h - 100)%nat with 0%nat by lia. reflexivity.
  - cbn [run fold_left].
    destruct (Nat.lt_ge_cases (List.length h) 100) as [Hlt|Hge].
    + rewrite record_session_short by exact Hlt.
      change (fold_left (fun h0 x0 => record_session x0 h0) xs (h ++ [x]))
        with (run (h ++ [x]) xs).
      rewrite IH by (rewrite length_app; cbn; lia).
      now rewrite <- app_assoc.
    + rewrite record_session_full by exact Hge.
      change (fold_left (fun h0 x0 => record_session x0 h0) xs (tl h ++ [x]))
        with (run (tl h ++ [x]) xs).
      destruct h as [|a h]; [cbn in Hge; lia|]. cbn [tl] in *.
      cbn [List.length] in Hlen, Hge.
      rewrite IH by (rewrite length_app; cbn; lia).
      rewrite <- app_assoc. cbn [app]. unfold lastn.
      cbn [List.length]. rewrite !length_app. cbn [List.length].
      replace (S (List.length h + S (List.length xs)) - 100)%nat
        with (S (List.length h + S (List.length xs) - 100)) by lia.
      reflexivity.
Qed.

(** Starting from an empty history, the history after any series of
    recordings is the last hundred sessions recorded, oldest first: it never
    holds more than a hundred entries and always ends with the latest. *)
Theorem history_keeps_last_hundred (sessions : list Session) :
  run [] sessions = lastn 100 sessions /\
  List.length (run [] sessions) = Nat.min 100 (List.length sessions).
Proof.
  rewrite (run_keeps_last_hundred sessions []) by (cbn; lia). cbn [app].
  split; [reflexivity|]. unfold lastn. rewrite length_skipn. lia.
Qed.

(** A history that is already longer than the cap, as one loaded from the
    store may be, is never cut back to it: each recording drops one entry
    and adds one, so the length stays what it was. *)
Theorem oversized_history_keeps_its_size (h sessions : list Session) :
  (100 <= List.length h)%nat ->
  List.length (run h sessions) = List.length h.
Proof.
  revert h. induction sessions as [|x xs IH]; intros h Hlen; [reflexivity|].
  cbn [run fold_left].
  change (fold_left (fun h0 x0 => record_session x0 h0) xs (record_session x h))
    with (run (record_session x h) xs).
  assert (Hstep : List.length (record_session x h) = List.length h).
  { rewrite record_session_full by exact Hlen.
    destruct h as [|a h]; [cbn in Hlen; lia|].
    cbn [tl]. rewrite length_app. cbn. lia. }
  rewrite IH by lia. exact Hstep.
Qed.

End PreferenceHistoryFacts.

(** ** The trigger as a disjunction *)

Section TriggerFacts.
Import Config ContextManager.

(** [should_trigger_charging] fires exactly when one of its four conditions
    holds: the state of charge at or below the trigger threshold; a
    destination farther than the remaining range; the manual flag of the
    re-sampled reading; the scheduled-departure predicate, when enabled.
    With the sensor stub and the placeholder predicate of the source, the
    last two never hold, so only the first two can fire. *)
Theorem trigger_is_disjunction (dist : LatLon -> LatLon -> Q)
  (resample : RawVehicleData) (scheduled : bool) (cfg : UAConfig)
  (ctx : VehicleContext) :
  (should_trigger_charging dist resample scheduled cfg ctx = true <->
   (state_of_charge ctx <= soc_trigger_threshold cfg)%Q \/
   (exists dest, destination ctx = Some dest /\
                 (remaining_range_km ctx < dist (gps_location ctx) dest)%Q) \/
   user_trigger resample = true \/
   (enable_scheduled_trigger cfg = true /\ scheduled = true)) /\
  (forall now,
     should_trigger_charging dist (collect_vehicle_data now)
       _scheduled_departure_trigger cfg ctx = true <->
     (state_of_charge ctx <= soc_trigger_threshold cfg)%Q \/
     (exists dest, destination ctx = Some dest /\
                   (remaining_range_km ctx < dist (gps_location ctx) dest)%Q)).
Proof.
  assert (Hgen : forall resample scheduled,
    should_trigger_charging dist resample scheduled cfg ctx = true <->
    (state_of_charge ctx <= soc_trigger_threshold cfg)%Q \/
    (exists dest, destination ctx = Some dest /\
                  (remaining_range_km ctx < dist (gps_location ctx) dest)%Q) \/
    user_trigger resample = true \/
    (enable_scheduled_trigger cfg = true /\ scheduled = true)).
  { intros rs sch. unfold should_trigger_charging.
    destruct (Qle_bool (state_of_charge ctx) (soc_trigger_threshold cfg)) eqn:E1.
    - apply Qle_bool_iff in E1. split; auto.
    - apply Qle_bool_false_lt in E1.
      assert (N1 : ~ (state_of_charge ctx <= soc_trigger_threshold cfg)%Q)
        by (now apply Qlt_not_le).
      destruct (destination ctx) as [dest|].
      + destruct (Qle_bool (dist (gps_location ctx) dest) (remaining_range_km ctx))
          eqn:E2; cbn [negb].
        * apply Qle_bool_iff in E2.
          assert (N2 : ~ (remaining_range_km ctx < dist (gps_location ctx) dest)%Q)
            by (now apply Qle_not_lt).
          destruct (user_trigger rs); [split; auto|].
          destruct (enable_scheduled_trigger cfg); [destruct sch|];
            split; auto; intros [H|[(d & Hd & H)|[H|[H1 H2]]]];
            try discriminate; try contradiction.
          -- injection Hd as <-. contradiction.
          -- injection Hd as <-. contradiction.
        * apply Qle_bool_false_lt in E2. split; [intros _|reflexivity].
          right. left. exists dest. split; [reflexivity|exact E2].
      + destruct (user_trigger rs); [split; auto|].
        destruct (enable_scheduled_trigger cfg); [destruct sch|];
          split; auto; intros [H|[(d & Hd & H)|[H|[H1 H2]]]];
          try discriminate; try contradiction. }
  split; [apply Hgen|].
  intro now. rewrite Hgen. cbn [user_trigger collect_vehicle_data].
  unfold _scheduled_departure_trigger.
  split.
  - intros [H|[H|[H|[_ H]]]]; auto; discriminate.
  - intros [H|H]; auto.
Qed.

End TriggerFacts.

(** ** Runs of the further theorems on concrete inputs *)

Lemma pass_stops_at_undecodable_row_witness :
  fst (ServerSync.process_sync_queue Samples.strict_loads
         (fun _ _ _ => true) Config.default Samples.two_pending)
  = Raise (ValueError "JSONDecodeError").
Proof.
  refine (proj1 (pass_stops_at_undecodable_row Samples.strict_loads
                   (fun _ _ _ => true) Config.default Samples.two_pending
                   [Samples.good_row] Samples.bad_row [] eq_refl _ eq_refl)).
  repeat constructor. discriminate.
Defined.

Lemma pass_with_backend_up_drains_witness :
  LocalCache.rows (LocalCache.db (ServerSync.local_cache
    (snd (ServerSync.process_sync_queue (fun text => Some text)
            (fun _ _ _ => true) Config.default Samples.two_pending)))) = [].
Proof.
  refine (proj1 (pass_with_backend_up_drains (fun text => Some text)
                   (fun _ _ _ => true) Config.default Samples.two_pending _ _)).
  - repeat constructor; discriminate.
  - reflexivity.
Defined.

Lemma pass_with_backend_down_keeps_all_witness :
  ServerSync.local_cache
    (snd (ServerSync.process_sync_queue (fun text => Some text)
            (fun _ _ _ => false) Config.default Samples.two_pending))
  = ServerSync.local_cache Samples.two_pending.
Proof.
  refine (proj1 (pass_with_backend_down_keeps_all (fun text => Some text)
                   (fun _ _ _ => false) Config.default Samples.two_pending _ _)).
  - repeat constructor; discriminate.
  - reflexivity.
Defined.

Lemma failed_push_is_redelivered_witness :
  LocalCache.rows (LocalCache.db (ServerSync.local_cache
    (snd (ServerSync.process_sync_queue (fun text => Some text)
            (fun n _ _ => Nat.eqb n 1) Config.default
            (snd (ServerSync.push_session (fun body : string => body)
                    (fun n _ _ => Nat.eqb n 1) Config.default 0 "{}"
                    ServerSync.fresh)))))) = [].
Proof.
  exact (proj2 (proj2 (failed_push_is_redelivered (fun body : string => body)
                         (fun text => Some text) (fun n _ _ => Nat.eqb n 1)
                         Config.default 0 "{}" ServerSync.fresh
                         eq_refl eq_refl eq_refl eq_refl))).
Defined.

Lemma session_start_latched_witness :
  SessionMonitor._session_start_time
    (SessionMonitor.run (fun _ => Some 0) (fun _ => "") (fun _ _ => 0)
       Config.default
       (snd (SessionMonitor.receive_telemetry 5
               (MonitorHistory.sample_telemetry "IN_PROGRESS")
               Samples.bound_monitor))
       [SessionMonitor.ReceiveTelemetry 9
          (MonitorHistory.sample_telemetry "IN_PROGRESS");
        SessionMonitor.UpdateEta 10 SessionMonitor.origin]) = Some 5.
Proof.
  exact (session_start_latched (fun _ => Some 0) (fun _ => "") (fun _ _ => 0)
           Config.default Samples.bound_monitor 5
           (MonitorHistory.sample_telemetry "IN_PROGRESS")
           [SessionMonitor.ReceiveTelemetry 9
              (MonitorHistory.sample_telemetry "IN_PROGRESS");
            SessionMonitor.UpdateEta 10 SessionMonitor.origin]
           eq_refl eq_refl eq_refl).
Defined.

Lemma telemetry_timeout_after_reception_witness :
  SessionMonitor.telemetry_timeout_detected Config.default 60000001
    (SessionMonitor.run (fun _ => Some 0) (fun _ => "") (fun _ _ => 0)
       Config.default
       (snd (SessionMonitor.receive_telemetry 0
               (MonitorHistory.sample_telemetry "IN_PROGRESS")
               Samples.bound_monitor))
       [SessionMonitor.UpdateEta 10 SessionMonitor.origin]) = true.
Proof.
  apply (proj2 (telemetry_timeout_after_reception (fun _ => Some 0)
                  (fun _ => "") (fun _ _ => 0) Config.default
                  Samples.bound_monitor 0 60000001
                  (MonitorHistory.sample_telemetry "IN_PROGRESS")
                  [SessionMonitor.UpdateEta 10 SessionMonitor.origin] eq_refl)).
  reflexivity.
Defined.

Lemma session_result_fields_witness :
  exists res,
    SessionMonitor.detect_session_complete (fun _ => Some 0) (fun _ => "")
      (fun _ _ => 0%Q) 99
      (snd (SessionMonitor.receive_telemetry 5
              (MonitorHistory.sample_telemetry "COMPLETED")
              Samples.bound_monitor)) = Ok (Some res) /\
    0 <= SessionMonitor.actual_wait_min res.
Proof.
  eexists. split; [reflexivity|].
  destruct (session_result_fields (fun _ => Some 0) (fun _ => "")
              (fun _ _ => 0%Q)
              (snd (SessionMonitor.receive_telemetry 5
                      (MonitorHistory.sample_telemetry "COMPLETED")
                      Samples.bound_monitor)) 99 _ eq_refl)
    as (r & tel & _ & _ & _ & _ & _ & _ & H & _).
  exact H.
Defined.



Lemma accept_in_other_case_is_dropped_witness :
  Orchestrator.handle_user_action
    (fun _ _ => Ok SessionMonitor.sample_reservation)
    "accept" (Some "st_1") Orchestrator.awaiting
  = (Ok tt, Orchestrator.awaiting).
Proof.
  refine (accept_in_other_case_is_dropped
            (fun _ _ => Ok SessionMonitor.sample_reservation)
            "accept" "st_1" Orchestrator.awaiting eq_refl _ _ _).
  - discriminate.
  - discriminate.
  - exists Orchestrator.sample_station. split; [left|]; reflexivity.
Defined.

Lemma non_accept_decisions_witness :
  Orchestrator.ca_calls
    (snd (Orchestrator.handle_user_action
            (fun _ _ => Ok SessionMonitor.sample_reservation)
            "DEFER" None Orchestrator.awaiting))
  = Orchestrator.ca_calls Orchestrator.awaiting.
Proof.
  refine (proj1 (non_accept_decisions
                   (fun _ _ => Ok SessionMonitor.sample_reservation)
                   "DEFER" None Orchestrator.awaiting _)).
  discriminate.
Defined.

Lemma requesting_stations_cycle_witness :
  fst (Orchestrator._run_cycle (fun _ => Some 0) (fun _ => "")
         (fun _ _ => 0%Q) (fun _ _ => 0%Q)
         (fun _ _ => Ok [Orchestrator.sample_station]) (fun _ => Ok tt)
         Config.default 0 Samples.requesting) = Ok tt.
Proof.
  exact (proj1 (requesting_stations_cycle (fun _ => Some 0) (fun _ => "")
                  (fun _ _ => 0%Q) (fun _ _ => 0%Q)
                  (fun _ _ => Ok [Orchestrator.sample_station]) (fun _ => Ok tt)
                  Config.default 0 Samples.requesting eq_refl)).
Defined.

Lemma parked_states_are_kept_witness :
  Handlers.run_loop (fun _ => Some 0) (fun _ => "")
    (fun _ _ => 0%Q) (fun _ _ => 0%Q) (fun _ _ => Ok []) (fun _ => Ok tt)
    Config.default (Samples.in_state Orchestrator.ERROR) [1; 2; 3]
  = Samples.in_state Orchestrator.ERROR.
Proof.
  exact (parked_states_are_kept (fun _ => Some 0) (fun _ => "")
           (fun _ _ => 0%Q) (fun _ _ => 0%Q) (fun _ _ => Ok [])
           (fun _ => Ok tt) Config.default
           (Samples.in_state Orchestrator.ERROR) [1; 2; 3] eq_refl).
Defined.

Lemma session_completed_cycle_witness :
  Orchestrator.state
    (snd (Orchestrator._run_cycle (fun _ => Some 0) (fun _ => "")
            (fun _ _ => 0%Q) (fun _ _ => 0%Q) (fun _ _ => Ok [])
            (fun _ => Ok tt) Config.default 0
            (Samples.in_state Orchestrator.SESSION_COMPLETED)))
  = Orchestrator.MONITORING.
Proof.
  pose proof (session_completed_cycle (fun _ => Some 0) (fun _ => "")
                (fun _ _ => 0%Q) (fun _ _ => 0%Q) (fun _ _ => Ok [])
                (fun _ => Ok tt) Config.default 0
                (Samples.in_state Orchestrator.SESSION_COMPLETED) eq_refl)
    as H.
  destruct H as [H _]. rewrite H. reflexivity.
Defined.

Lemma finalized_reservation_is_frozen_witness :
  ReservationLifecycle.run
    (ReservationModels.sample ReservationModels.CANCELLED)
    [(ReservationModels.MarkCancelled ReservationModels.FAULT, 3);
     (ReservationModels.MarkActive, 4)]
  = ReservationModels.sample ReservationModels.CANCELLED.
Proof.
  apply finalized_reservation_is_frozen. right. reflexivity.
Defined.


Lemma constructed_list_has_top_witness :
  StationModels.to_list {| StationModels.stations := [Samples.station] |}
  = [Samples.station].
Proof.
  exact (proj1 (constructed_list_has_top [Samples.station]
                  {| StationModels.stations := [Samples.station] |} eq_refl)).
Defined.

Lemma oversized_history_keeps_its_size_witness :
  List.length (PreferenceHistory.run (repeat 0%nat 120) [1; 2; 3]%nat) = 120%nat.
Proof.
  rewrite (oversized_history_keeps_its_size (repeat 0%nat 120) [1; 2; 3]%nat).
  - apply repeat_length.
  - rewrite repeat_length. lia.
Defined.
